(** * py2deb: the stdeb backend ([py2deb/backends/stdeb_backend.py])

    A shallow embedding of the build pipeline of the stdeb backend: the
    control-file format it reads and writes, the field merger, the
    artifact scan, and the six pipeline stages, run in a state-and-error
    monad over a model of the process world (file system, environment,
    trace of observable actions). *)

From Stdlib Require Import Ascii ZArith Lia.
From stdpp Require Import gmap strings list.

Set Default Proof Using "Type".
Set Warnings "-register-all".

(** ** Text *)

Module Text.

Definition LF : ascii := "010"%char.
Definition nl : string := String LF "".

(** [', '.join(xs)] *)
Definition join (sep : string) (xs : list string) : string :=
  String.concat sep xs.

(** The lines of a text, without their terminators (a file object
    iterated line by line). *)
Fixpoint splitlines (s : string) : list string :=
  match s with
  | "" => []
  | String c s' =>
      if Ascii.eqb c LF then "" :: splitlines s'
      else match splitlines s' with
           | [] => [String c ""]
           | l :: ls => String c l :: ls
           end
  end.

(** Every line written with its terminator. *)
Fixpoint unlines (ls : list string) : string :=
  match ls with
  | [] => ""
  | l :: ls' => l +:+ nl +:+ unlines ls'
  end.

Fixpoint newline_terminated (s : string) : bool :=
  match s with
  | "" => true
  | String c s' =>
      match s' with
      | "" => Ascii.eqb c LF
      | String _ _ => newline_terminated s'
      end
  end.

Fixpoint endswith (s suffix : string) : bool :=
  String.eqb s suffix
  || match s with
     | "" => false
     | String _ s' => endswith s' suffix
     end.

Definition lower_ascii (c : ascii) : ascii :=
  let n := nat_of_ascii c in
  if (65 <=? n)%nat && (n <=? 90)%nat then ascii_of_nat (n + 32) else c.

Fixpoint lower (s : string) : string :=
  match s with
  | "" => ""
  | String c s' => String (lower_ascii c) (lower s')
  end.

End Text.

(** ** Errors *)

Definition path := list string.

(** [BackendFailed] is py2deb's own exception class; [PyException] is the
    bare [Exception] that [dpkg_buildpackage] raises; the others are what
    the Python runtime and the external collaborators raise. *)
Inductive exn : Type :=
| BackendFailed (msg : string)
| PyException (msg : string)
| IOError (file : path)
| OSError (file : path)
| FormatError (line : string)
| ReError (pattern : string)
| IndexError (index : nat)
| CollaboratorError (who : string) (msg : string).

Inductive result (A : Type) : Type :=
| Ok (a : A)
| Raise (e : exn).
Arguments Ok {A} a.
Arguments Raise {A} e.

Definition is_BackendFailed (e : exn) : bool :=
  match e with BackendFailed _ => true | _ => false end.

(** ** The control-file format *)

Module Deb822.

Import Text.

(** A paragraph: its fields in order, name and value. The value of a
    folded field keeps its continuation lines, each behind a line
    break. *)
Definition field : Type := string * string.
Definition paragraph : Type := list field.

Definition is_blank (l : string) : bool :=
  match l with "" => true | _ => false end.

Definition is_continuation (l : string) : bool :=
  match l with
  | String c _ => Ascii.eqb c " " || Ascii.eqb c "009"
  | "" => false
  end.

(** Modelled from the spec: the parser of the external [Deb822] class
    is not part of the sources. A field line is [Field: value]: the
    name runs up to the first colon, which a single space follows. *)
Fixpoint split_field (l : string) : option field :=
  match l with
  | "" => None
  | String c l' =>
      if Ascii.eqb c ":" then
        match l' with
        | String " " v => Some ("", v)
        | _ => None
        end
      else
        match split_field l' with
        | Some (n, v) => Some (String c n, v)
        | None => None
        end
  end.

Definition field_line (l : string) : option field :=
  match split_field l with
  | Some ("", _) => None
  | r => r
  end.

Definition emit (cur : option field) (p : paragraph) : paragraph :=
  match cur with
  | Some f => f :: p
  | None => p
  end.

(** Modelled from the spec: one paragraph from its lines. [cur] is the
    field being read; a continuation line is appended to its value
    verbatim, leading whitespace included; any other line must be a
    field line. *)
Fixpoint parse_fields (cur : option field) (ls : list string)
  : result paragraph :=
  match ls with
  | [] => Ok (emit cur [])
  | l :: ls' =>
      if is_continuation l then
        match cur with
        | Some (n, v) => parse_fields (Some (n, v +:+ nl +:+ l)) ls'
        | None => Raise (FormatError l)
        end
      else
        match field_line l with
        | Some f =>
            match parse_fields (Some f) ls' with
            | Ok p => Ok (emit cur p)
            | Raise e => Raise e
            end
        | None => Raise (FormatError l)
        end
  end.

Definition parse_paragraph (ls : list string) : result paragraph :=
  parse_fields None ls.

(** Modelled from the spec: the text is split on blank-line
    boundaries. [cur] is the block being read. *)
Fixpoint split_blocks (cur : list string) (ls : list string)
  : list (list string) :=
  match ls with
  | [] => match cur with [] => [] | _ => [cur] end
  | l :: ls' =>
      if is_blank l then
        match cur with
        | [] => split_blocks [] ls'
        | _ => cur :: split_blocks [] ls'
        end
      else split_blocks (cur ++ [l]) ls'
  end.

Fixpoint parse_blocks (bs : list (list string)) : result (list paragraph) :=
  match bs with
  | [] => Ok []
  | b :: bs' =>
      match parse_paragraph b with
      | Ok p =>
          match parse_blocks bs' with
          | Ok ps => Ok (p :: ps)
          | Raise e => Raise e
          end
      | Raise e => Raise e
      end
  end.

(** Modelled from the spec: [list(Deb822.iter_paragraphs(handle))]. *)
Definition iter_paragraphs (text : string) : result (list paragraph) :=
  parse_blocks (split_blocks [] (splitlines text)).

(** Modelled from the spec: [paragraph.dump(handle)] writes the fields
    in order, one [Field: value] entry each. *)
Fixpoint dump (p : paragraph) : string :=
  match p with
  | [] => ""
  | (n, v) :: p' => n +:+ ": " +:+ v +:+ nl +:+ dump p'
  end.

(** What [patch_control] writes back (lines 74 to 76): the first
    paragraph, one blank line, the second paragraph. *)
Definition control_text (p0 p1 : paragraph) : string :=
  dump p0 +:+ nl +:+ dump p1.

(** The layout of a two-paragraph document: a run of non-blank lines,
    one blank line, a run of non-blank lines. *)
Fixpoint leading_block (ls : list string) : list string * list string :=
  match ls with
  | [] => ([], [])
  | l :: ls' =>
      if is_blank l then ([], ls)
      else let '(b, rest) := leading_block ls' in (l :: b, rest)
  end.

Definition no_blank (ls : list string) : bool :=
  forallb (fun l => negb (is_blank l)) ls.

Definition two_blocks (ls : list string) : bool :=
  match leading_block ls with
  | (_ :: _, sep :: (_ :: _) as b1) => is_blank sep && no_blank b1
  | _ => false
  end.

Definition parses (text : string) : bool :=
  match iter_paragraphs text with
  | Ok _ => true
  | Raise _ => false
  end.

(** A well-formed two-paragraph control document: every line is
    terminated, the lines are two blocks separated by one blank line,
    and every line is a field line or a continuation line in place. *)
Definition well_formed_document (text : string) : bool :=
  newline_terminated text && two_blocks (splitlines text) && parses text.

End Deb822.

(** ** The field merger *)

Module FieldMerger.

Import Text Deb822.

(** Field names keep their case and are compared without it. *)
Definition same_field (a b : string) : bool :=
  String.eqb (lower a) (lower b).

Fixpoint get_field (k : string) (p : paragraph) : option string :=
  match p with
  | [] => None
  | (n, v) :: p' => if same_field n k then Some v else get_field k p'
  end.

(** One override: the value of an existing field is replaced where it
    stands, a new field goes to the end. *)
Fixpoint set_field (k v : string) (p : paragraph) : paragraph :=
  match p with
  | [] => [(k, v)]
  | (n, x) :: p' =>
      if same_field n k then (n, v) :: p' else (n, x) :: set_field k v p'
  end.

(** Modelled from the spec: [merge_control_fields] of the external
    [deb_pkg_tools] package is not part of the sources. The overrides
    are applied one key after the other to a copy of the paragraph. *)
Definition merge_control_fields (p : paragraph) (overrides : list field)
  : paragraph :=
  fold_left (fun acc kv => set_field kv.1 kv.2 acc) overrides p.

(** The binding a list of overrides ends up giving to a field: the
    last one for that name. *)
Definition override_of (k : string) (overrides : list field)
  : option string :=
  get_field k (reverse overrides).

End FieldMerger.

(** ** File-name patterns ([fnmatch]) *)

Module Fnmatch.

Inductive token : Type :=
| Star
| AnyChar
| Set_ (stuff : string)
| Lit (c : ascii).

Fixpoint take_chars (n : nat) (s : string) : string :=
  match n, s with
  | S k, String c s' => String c (take_chars k s')
  | _, _ => ""
  end.

Fixpoint drop_chars (n : nat) (s : string) : string :=
  match n, s with
  | S k, String _ s' => drop_chars k s'
  | _, _ => s
  end.

Fixpoint find_close (s : string) : option nat :=
  match s with
  | "" => None
  | String c s' =>
      if Ascii.eqb c "]" then Some 0 else S <$> find_close s'
  end.

(** The scan of [translate] for the end of a bracket expression, on
    the text after the opening bracket: a leading [!] and then a
    leading closing bracket are stepped over, and the next closing
    bracket ends the expression. The result is the length of the
    expression's text. *)
Definition set_end (s : string) : option nat :=
  let j0 := match s with String "!" _ => 1 | _ => 0 end in
  let j1 := match drop_chars j0 s with String "]" _ => S j0 | _ => j0 end in
  (fun k => j1 + k) <$> find_close (drop_chars j1 s).

(** [fnmatch.translate]: [skip] counts the characters still to step
    over after a bracket expression has been read. *)
Fixpoint translate_go (skip : nat) (pat : string) : list token :=
  match pat with
  | "" => []
  | String c rest =>
      match skip with
      | S k => translate_go k rest
      | O =>
          if Ascii.eqb c "*" then Star :: translate_go 0 rest
          else if Ascii.eqb c "?" then AnyChar :: translate_go 0 rest
          else if Ascii.eqb c "[" then
            match set_end rest with
            | Some j => Set_ (take_chars j rest) :: translate_go (S j) rest
            | None => Lit c :: translate_go 0 rest
            end
          else Lit c :: translate_go 0 rest
      end
  end.

Definition translate (pat : string) : list token := translate_go 0 pat.

Definition ascii_le (a b : ascii) : bool :=
  (nat_of_ascii a <=? nat_of_ascii b)%nat.

(** The members of a bracket expression: single characters and ranges
    [lo-hi]. *)
Fixpoint set_items (body : string) (c : ascii) : bool :=
  match body with
  | "" => false
  | String lo (String "-" (String hi rest)) =>
      (ascii_le lo c && ascii_le c hi) || set_items rest c
  | String x rest => Ascii.eqb x c || set_items rest c
  end.

(** The regular-expression compiler refuses a range whose ends are the
    wrong way round. *)
Fixpoint set_valid (body : string) : bool :=
  match body with
  | "" => true
  | String lo (String "-" (String hi rest)) =>
      ascii_le lo hi && set_valid rest
  | String _ rest => set_valid rest
  end.

Definition set_body (stuff : string) : bool * string :=
  match stuff with
  | String "!" body => (true, body)
  | _ => (false, stuff)
  end.

Definition in_set (stuff : string) (c : ascii) : bool :=
  let '(negated, body) := set_body stuff in
  xorb negated (set_items body c).

Definition token_valid (t : token) : bool :=
  match t with
  | Set_ stuff => set_valid (set_body stuff).2
  | _ => true
  end.

(** Matching the translated pattern against a whole name. *)
Fixpoint glob (ts : list token) (s : string) : bool :=
  match ts with
  | [] => match s with "" => true | _ => false end
  | Star :: ts' =>
      (fix star (s : string) : bool :=
         glob ts' s
         || match s with
            | "" => false
            | String _ s' => star s'
            end) s
  | AnyChar :: ts' =>
      match s with
      | String _ s' => glob ts' s'
      | "" => false
      end
  | Set_ stuff :: ts' =>
      match s with
      | String d s' => in_set stuff d && glob ts' s'
      | "" => false
      end
  | Lit c :: ts' =>
      match s with
      | String d s' => Ascii.eqb c d && glob ts' s'
      | "" => false
      end
  end.

(** The tokens of a pattern without special characters. *)
Fixpoint literal (s : string) : list token :=
  match s with
  | "" => []
  | String c s' => Lit c :: literal s'
  end.

(** What the backend appends to the package name to get the pattern of
    the archive (line 118). *)
Definition archive_tail : string := "_*.deb".

Definition compiles (pat : string) : bool :=
  forallb token_valid (translate pat).

(** Whether a name matches a pattern that compiles. *)
Definition matches (name pat : string) : bool :=
  glob (translate pat) name.

(** [fnmatch.fnmatch(name, pat)] on a POSIX system, where [normcase]
    changes nothing. *)
Definition fnmatch (name pat : string) : result bool :=
  if compiles pat then Ok (matches name pat) else Raise (ReError pat).

End Fnmatch.

(** ** The file system *)

Module FS.

(** A directory lists its entries in the order [os.listdir] gives
    them. *)
Inductive node : Type :=
| File (data : string)
| Dir (entries : list (string * node)).

Fixpoint find_entry (c : string) (es : list (string * node)) : option node :=
  match es with
  | [] => None
  | (k, m) :: es' => if String.eqb k c then Some m else find_entry c es'
  end.

Fixpoint alter_entry (c : string) (f : node -> node)
    (es : list (string * node)) : list (string * node) :=
  match es with
  | [] => []
  | (k, m) :: es' =>
      if String.eqb k c then (k, f m) :: es' else (k, m) :: alter_entry c f es'
  end.

Definition remove_entry (c : string) (es : list (string * node))
  : list (string * node) :=
  List.filter (fun e => negb (String.eqb e.1 c)) es.

Fixpoint lookup (p : path) (n : node) : option node :=
  match p with
  | [] => Some n
  | c :: p' =>
      match n with
      | Dir es =>
          match find_entry c es with
          | Some m => lookup p' m
          | None => None
          end
      | File _ => None
      end
  end.

Definition isfile (p : path) (n : node) : bool :=
  match lookup p n with Some (File _) => true | _ => false end.

Definition isdir (p : path) (n : node) : bool :=
  match lookup p n with Some (Dir _) => true | _ => false end.

Definition listdir (p : path) (n : node) : option (list string) :=
  match lookup p n with
  | Some (Dir es) => Some (map fst es)
  | _ => None
  end.

Definition read (p : path) (n : node) : option string :=
  match lookup p n with
  | Some (File data) => Some data
  | _ => None
  end.

(** The tree without the entry at [p]. *)
Fixpoint remove (p : path) (n : node) : node :=
  match p, n with
  | [c], Dir es => Dir (remove_entry c es)
  | c :: p', Dir es => Dir (alter_entry c (remove p') es)
  | _, _ => n
  end.

(** The tree with [f] applied to the node at [p]. *)
Fixpoint alter (p : path) (f : node -> node) (n : node) : node :=
  match p with
  | [] => f n
  | c :: p' =>
      match n with
      | Dir es => Dir (alter_entry c (alter p' f) es)
      | File _ => n
      end
  end.

(** [shutil.rmtree]: the path must be a directory. *)
Definition rmtree (p : path) (n : node) : option node :=
  if isdir p n then Some (remove p n) else None.

(** The tree with [data] as the content of the file at [p]: the file
    is created in an existing directory, or replaced; a directory at
    [p] or a missing parent is an error. *)
Fixpoint write (p : path) (data : string) (n : node) : option node :=
  match p, n with
  | [c], Dir es =>
      match find_entry c es with
      | Some (Dir _) => None
      | Some (File _) => Some (Dir (alter_entry c (fun _ => File data) es))
      | None => Some (Dir (es ++ [(c, File data)]))
      end
  | c :: p', Dir es =>
      match find_entry c es with
      | Some m =>
          match write p' data m with
          | Some m' => Some (Dir (alter_entry c (fun _ => m') es))
          | None => None
          end
      | None => None
      end
  | _, _ => None
  end.

(** Absolute paths are kept as their components: [os.path.join] adds
    components, [os.path.dirname] drops the last one. *)
Definition path_str (p : path) : string :=
  match p with
  | [] => "/"
  | _ => String.concat "" (map (fun c => "/" +:+ c) p)
  end.

Definition dirname (p : path) : path := removelast p.

End FS.

(** ** The process world and the monad of the pipeline *)

Inductive level : Type := DEBUG | INFO | WARNING.

(** What the process does that can be observed from outside: log
    records (format string and arguments as the call gives them), the
    subprocesses it starts, the files it opens and the trees it
    removes. *)
Inductive event : Type :=
| Log (lvl : level) (fmt : string) (args : list string)
| Exec (command : string) (cwd : path) (verbose : bool)
| System (command : string)
| Opened (file : path) (mode : string)
| Removed (tree : path).

Record world : Type := World {
  fs : FS.node;
  environ : gmap string string;
  trace : list event
}.

(** A computation runs on the world and leaves a world behind, also
    when it raises. *)
Definition M (A : Type) : Type := world -> result A * world.

Global Instance M_ret : MRet M := fun A (a : A) w => (Ok a, w).

Global Instance M_bind : MBind M := fun A B (f : A -> M B) (m : M A) w =>
  match m w with
  | (Ok a, w') => f a w'
  | (Raise e, w') => (Raise e, w')
  end.

Definition raise {A : Type} (e : exn) : M A := fun w => (Raise e, w).

Definition lift {A : Type} (r : result A) : M A := fun w => (r, w).

Definition emit_event (e : event) : M unit := fun w =>
  (Ok (), World (fs w) (environ w) (trace w ++ [e])).

Definition logger_debug (fmt : string) (args : list string) : M unit :=
  emit_event (Log DEBUG fmt args).
Definition logger_info (fmt : string) (args : list string) : M unit :=
  emit_event (Log INFO fmt args).
Definition logger_warn (fmt : string) (args : list string) : M unit :=
  emit_event (Log WARNING fmt args).

(** [os.path.isfile] *)
Definition os_path_isfile (p : path) : M bool := fun w =>
  (Ok (FS.isfile p (fs w)), w).

(** [shutil.rmtree] *)
Definition shutil_rmtree (p : path) : M unit := fun w =>
  match FS.rmtree p (fs w) with
  | Some t => (Ok (), World t (environ w) (trace w ++ [Removed p]))
  | None => (Raise (OSError p), w)
  end.

(** [os.listdir] *)
Definition os_listdir (p : path) : M (list string) := fun w =>
  match FS.listdir p (fs w) with
  | Some names => (Ok names, w)
  | None => (Raise (OSError p), w)
  end.

(** [open(file, 'r')] and the reading of the whole file. *)
Definition read_file (p : path) : M string := fun w =>
  match FS.read p (fs w) with
  | Some data => (Ok data, World (fs w) (environ w) (trace w ++ [Opened p "r"]))
  | None => (Raise (IOError p), w)
  end.

(** [open(file, 'w')]: the file is created or emptied. *)
Definition open_for_writing (p : path) : M unit := fun w =>
  match FS.write p "" (fs w) with
  | Some t => (Ok (), World t (environ w) (trace w ++ [Opened p "w"]))
  | None => (Raise (IOError p), w)
  end.

(** [handle.write(data)] on a file opened for writing. *)
Definition handle_write (p : path) (data : string) : M unit := fun w =>
  match FS.read p (fs w) with
  | Some old =>
      match FS.write p (old +:+ data) (fs w) with
      | Some t => (Ok (), World t (environ w) (trace w))
      | None => (Raise (IOError p), w)
      end
  | None => (Raise (IOError p), w)
  end.

(** [os.environ[key] = value] *)
Definition setenv (key value : string) : M unit := fun w =>
  (Ok (), World (fs w) (<[key := value]> (environ w)) (trace w)).

(** [l[i]] *)
Definition index {A : Type} (l : list A) (i : nat) : M A :=
  match l !! i with
  | Some x => mret x
  | None => raise (IndexError i)
  end.

(** ** What the backend is given *)

Record Package : Type := {
  name : string;
  debian_name : string;
  directory : path;
  debian_dependencies : list string
}.

(** The configuration object, through the two methods the backend
    calls. *)
Record Config : Type := {
  has_option : string -> string -> bool;
  get : string -> string -> result string
}.

Record Context : Type := {
  package : Package;
  verbose : bool;
  config : Config;
  auto_install : bool
}.

(** The collaborators outside the backend: the installed stdeb version,
    the Python prefix, the programs that subprocesses run (from the
    command, the working directory, the verbosity, the environment and
    the file system to the file system they leave and their exit
    status), the dependency checker, the tree cleaner, the clock behind
    [time.strftime], and the control-field overrides that the
    configuration holds for a source package. *)
Class Externals : Type := {
  stdeb_version : string;
  sys_prefix : path;
  subprocess : string -> path -> bool -> gmap string string -> FS.node
               -> FS.node * Z;
  shell : string -> gmap string string -> FS.node -> FS.node * Z;
  sanity_check_dependencies : string -> bool -> M unit;
  clean_package_tree : path -> M unit;
  time_strftime : string -> string;
  user_overrides : string -> list Deb822.field
}.

(** ** [pipes.quote] *)

Module Pipes.

Definition in_range (lo hi : nat) (c : ascii) : bool :=
  (lo <=? nat_of_ascii c)%nat && (nat_of_ascii c <=? hi)%nat.

Fixpoint mem_char (c : ascii) (s : string) : bool :=
  match s with
  | "" => false
  | String d s' => Ascii.eqb c d || mem_char c s'
  end.

Definition safe_char (c : ascii) : bool :=
  in_range 97 122 c || in_range 65 90 c || in_range 48 57 c
  || mem_char c "@%_-+=:,./".

Fixpoint all_safe (s : string) : bool :=
  match s with
  | "" => true
  | String c s' => safe_char c && all_safe s'
  end.

Definition dquote : ascii := "034"%char.

(** [file.replace] of every single quote by a closing quote, a
    double-quoted single quote and an opening quote. *)
Fixpoint escape_quotes (s : string) : string :=
  match s with
  | "" => ""
  | String c s' =>
      if Ascii.eqb c "'" then
        String "'" (String dquote (String "'" (String dquote
          (String "'" (escape_quotes s')))))
      else String c (escape_quotes s')
  end.

Definition quote (file : string) : string :=
  if all_safe file then
    match file with
    | "" => "''"
    | _ => file
    end
  else "'" +:+ escape_quotes file +:+ "'".

End Pipes.

(** ** The backend *)

Section Backend.

Context `{Externals}.

Import Text Deb822 FieldMerger.

Definition nonzero (status : Z) : bool := negb (Z.eqb status 0).

(** Modelled from the spec: [py2deb.util.run] is not part of the
    sources. It runs the command as a blocking subprocess in the given
    directory and returns its exit status. *)
Definition run (command : string) (cwd : path) (verbose : bool) : M Z :=
  fun w =>
    let '(t, status) := subprocess command cwd verbose (environ w) (fs w) in
    (Ok status,
     World t (environ w) (trace w ++ [Exec command cwd verbose])).

(** [os.system]: the exit status is returned. *)
Definition os_system (command : string) : M Z := fun w =>
  let '(t, status) := shell command (environ w) (fs w) in
  (Ok status, World t (environ w) (trace w ++ [System command])).

(** Modelled from the spec: [py2deb.util.patch_control_file] is not
    part of the sources. The overrides that the configuration holds
    for the source package are merged into the paragraph. *)
Definition patch_control_file (pkg : Package) (p : paragraph) : paragraph :=
  merge_control_fields p (user_overrides (name pkg)).

(** [os.path.join(package.directory, 'debian', 'control')] *)
Definition control_file (pkg : Package) : path :=
  directory pkg ++ ["debian"; "control"].

(** The command line of the Debianizer (lines 40 to 43). *)
Definition debianize_command : list string :=
  let python := FS.path_str (sys_prefix ++ ["bin"; "python"]) in
  let command :=
    [python; "setup.py"; "--command-packages=stdeb.command"; "debianize"] in
  if String.eqb stdeb_version "0.6.0"
  then command ++ ["--ignore-install-requires"]
  else command.

Definition debianize (pkg : Package) (verbose : bool) : M unit :=
  previously ← os_path_isfile (control_file pkg);
  (if previously : bool then
     logger_warn
       "%s: Package was previously Debianized: Overwriting existing files!"
       [name pkg];;
     shutil_rmtree (directory pkg ++ ["debian"])
   else mret ());;
  logger_debug "%s: Debianizing package" [name pkg];;
  status ← run (join " " debianize_command) (directory pkg) verbose;
  if nonzero status then
    raise (BackendFailed
             ("Failed to debianize package! (" +:+ name pkg +:+ ")"))
  else logger_debug "%s: Finished debianizing package." [name pkg].

(** The overrides that [patch_control] computes (lines 66 to 68), in
    the order the call names them. *)
Definition computed_overrides (pkg : Package) : list field :=
  [("Package", debian_name pkg);
   ("Description", time_strftime "Packaged by py2deb on %B %e, %Y at %H:%M");
   ("Depends", join ", " (debian_dependencies pkg))].

(** The binary paragraph after both passes of [patch_control] (lines
    69 and 72). *)
Definition patched (pkg : Package) (p1 : paragraph) : paragraph :=
  patch_control_file pkg (merge_control_fields p1 (computed_overrides pkg)).

Definition patch_control (pkg : Package) (cfg : Config) : M unit :=
  logger_debug "%s: Patching control file of %s" [name pkg];;
  let control_file := control_file pkg in
  text ← read_file control_file;
  paragraphs ← lift (iter_paragraphs text);
  if negb (Nat.eqb (length paragraphs) 2) then
    raise (BackendFailed
             ("Unexpected control file format for " +:+ name pkg +:+ "!"))
  else
    open_for_writing control_file;;
    let overrides := computed_overrides pkg in
    binary ← index paragraphs 1;
    let paragraphs := <[1 := merge_control_fields binary overrides]> paragraphs in
    binary ← index paragraphs 1;
    let paragraphs := <[1 := patch_control_file pkg binary]> paragraphs in
    source ← index paragraphs 0;
    handle_write control_file (dump source);;
    handle_write control_file nl;;
    binary ← index paragraphs 1;
    handle_write control_file (dump binary);;
    logger_debug "%s: Control file has been patched." [name pkg].

Definition apply_script (pkg : Package) (cfg : Config) (verbose : bool)
  : M unit :=
  if has_option cfg (name pkg) "script" then
    command ← lift (get cfg (name pkg) "script");
    logger_debug "%s: Executing shell command %s in %s .."
      [name pkg; command; FS.path_str (directory pkg)];;
    status ← run command (directory pkg) verbose;
    if nonzero status then
      raise (BackendFailed ("Failed to apply script to " +:+ name pkg +:+ "!"))
    else logger_debug "%s: Shell command has been executed." [name pkg]
  else mret ().

(** The glob of the archive to find (line 118). *)
Definition archive_pattern (pkg : Package) : string :=
  debian_name pkg +:+ "_*.deb".

(** The loop over the directory listing (lines 114 to 123). *)
Fixpoint scan (pkg : Package) (parent_directory : path)
    (filenames : list string) : M path :=
  match filenames with
  | [] =>
      raise (BackendFailed
               ("Could not find generated archive of " +:+ name pkg +:+ "!"))
  | filename :: rest =>
      if endswith filename ".deb" then
        let pathname := parent_directory ++ [filename] in
        logger_debug "%s: Considering file: %s"
          [name pkg; FS.path_str pathname];;
        matched ← lift (Fnmatch.fnmatch filename (archive_pattern pkg));
        if matched : bool then
          logger_info
            "%s: Build of %s succeeded, checking package with Lintian .."
            [name pkg; FS.path_str pathname];;
          os_system
            ("lintian " +:+ Pipes.quote (FS.path_str pathname) +:+ " >&2");;
          mret pathname
        else scan pkg parent_directory rest
      else scan pkg parent_directory rest
  end.

Definition dpkg_buildpackage (pkg : Package) (verbose : bool) : M path :=
  logger_info "%s: Building package .." [debian_name pkg];;
  let command := ". /etc/environment && dpkg-buildpackage -us -uc" in
  (if verbose then setenv "DH_VERBOSE" "1" else mret ());;
  (if String.eqb stdeb_version "0.6.0+git"
   then setenv "DH_OPTIONS" "--no-guessing-deps"
   else mret ());;
  status ← run command (directory pkg) verbose;
  if nonzero status then
    raise (PyException ("Failed to build package " +:+ debian_name pkg +:+ "!"))
  else
    logger_debug "%s: Scanning for generated Debian packages .." [name pkg];;
    let parent_directory := FS.dirname (directory pkg) in
    filenames ← os_listdir parent_directory;
    scan pkg parent_directory filenames.

(** The environment that [dpkg_buildpackage] leaves (lines 104 to
    109). *)
Definition build_environ (verbose : bool) (env : gmap string string)
  : gmap string string :=
  let env := if verbose then <["DH_VERBOSE" := "1"]> env else env in
  if String.eqb stdeb_version "0.6.0+git"
  then <["DH_OPTIONS" := "--no-guessing-deps"]> env
  else env.

Definition build_command : string :=
  ". /etc/environment && dpkg-buildpackage -us -uc".

Definition build (context : Context) : M path :=
  debianize (package context) (verbose context);;
  patch_control (package context) (config context);;
  apply_script (package context) (config context) (verbose context);;
  sanity_check_dependencies (name (package context)) (auto_install context);;
  clean_package_tree (directory (package context));;
  dpkg_buildpackage (package context) (verbose context).

(** The stages of [build] before the last one, in the order of the
    source. *)
Definition stages (context : Context) : list (M unit) :=
  [debianize (package context) (verbose context);
   patch_control (package context) (config context);
   apply_script (package context) (config context) (verbose context);
   sanity_check_dependencies (name (package context)) (auto_install context);
   clean_package_tree (directory (package context))].

(** What [debianize] is seen to do from the Debianizer on. *)
Definition debianize_events (pkg : Package) (verbose : bool) : list event :=
  [Log DEBUG "%s: Debianizing package" [name pkg];
   Exec (join " " debianize_command) (directory pkg) verbose].

(** How [debianize] ends once the Debianizer has run on the tree
    [start], after the events [before]. *)
Definition debianize_outcome (pkg : Package) (verbose : bool)
    (env : gmap string string) (start : FS.node) (before : list event)
  : result unit * world :=
  let '(t, status) :=
    subprocess (join " " debianize_command) (directory pkg) verbose env start in
  if nonzero status then
    (Raise (BackendFailed
              ("Failed to debianize package! (" +:+ name pkg +:+ ")")),
     World t env (before ++ debianize_events pkg verbose))
  else
    (Ok (),
     World t env
       (before ++ debianize_events pkg verbose
        ++ [Log DEBUG "%s: Finished debianizing package." [name pkg]])).

(** The error of line 123. *)
Definition not_found (pkg : Package) : exn :=
  BackendFailed ("Could not find generated archive of " +:+ name pkg +:+ "!").

(** The test of line 118. *)
Definition is_archive (pkg : Package) (filename : string) : bool :=
  Fnmatch.matches filename (archive_pattern pkg).

(** The error of line 111. *)
Definition build_failed (pkg : Package) : exn :=
  PyException ("Failed to build package " +:+ debian_name pkg +:+ "!").

(** What [dpkg_buildpackage] is seen to do up to the native build. *)
Definition build_events (pkg : Package) (verbose : bool) : list event :=
  [Log INFO "%s: Building package .." [debian_name pkg];
   Exec build_command (directory pkg) verbose].

End Backend.

(** The stages run one after the other on the world, up to the first
    that raises. *)
Fixpoint run_stages (ss : list (M unit)) (w : world) : result unit * world :=
  match ss with
  | [] => (Ok (), w)
  | s :: ss' =>
      match s w with
      | (Ok _, w') => run_stages ss' w'
      | (Raise e, w') => (Raise e, w')
      end
  end.

(** ** A sample package and sample collaborators *)

Module Sample.

Import Text Deb822.

Definition control : string :=
  unlines ["Source: foo"; "Maintainer: X"; "";
           "Package: foo"; "Depends: (none)"; "Maintainer: X"].

Definition source_only : string := unlines ["Source: foo"; "Maintainer: X"].

Definition foo : Package := {|
  name := "foo";
  debian_name := "pydeb-foo";
  directory := ["build"; "foo"];
  debian_dependencies := ["a"; "b"]
|}.

(** The build directory, with the given content of [foo/debian] and
    the given entries next to [foo]. *)
Definition tree (debian siblings : list (string * FS.node)) : FS.node :=
  FS.Dir
    [("build",
      FS.Dir
        (siblings
         ++ [("foo",
              FS.Dir [("setup.py", FS.File ""); ("debian", FS.Dir debian)])]))].

Definition debianized : FS.node := tree [("control", FS.File control)] [].
Definition truncated : FS.node := tree [("control", FS.File source_only)] [].
Definition leftover : FS.node := tree [("rules", FS.File "old rules")] [].

Definition archive : string := "pydeb-foo_1.0-1_all.deb".

(** A process that has [HOME] in its environment. *)
Definition at_home (t : FS.node) : world :=
  World t {["HOME" := "/root"]} [].

(** A new [debian] directory with its control file, at the end of a
    directory. *)
Definition add_debian (n : FS.node) : FS.node :=
  match n with
  | FS.Dir es => FS.Dir (es ++ [("debian", FS.Dir [("control", FS.File control)])])
  | FS.File _ => n
  end.

(** The programs: the Debianizer writes [debian/control], making the
    directory when it is missing, and leaves what else it finds; the
    builder puts the archive next to the package directory and exits
    with the given status; any other command does nothing, and [exit 1]
    fails. *)
Definition programs (build_status : Z) (command : string) (cwd : path)
    (verbose : bool) (env : gmap string string) (t : FS.node)
  : FS.node * Z :=
  if String.prefix "/usr/bin/python setup.py" command then
    match FS.write (cwd ++ ["debian"; "control"]) control t with
    | Some t' => (t', 0%Z)
    | None => (FS.alter cwd add_debian t, 0%Z)
    end
  else if String.prefix ". /etc/environment" command then
    match FS.write (FS.dirname cwd ++ [archive]) "!<arch>" t with
    | Some t' => (t', build_status)
    | None => (t, build_status)
    end
  else if String.eqb command "exit 1" then (t, 1%Z)
  else (t, 0%Z).

Definition externals (version : string) (build_status : Z) : Externals := {|
  stdeb_version := version;
  sys_prefix := ["usr"];
  subprocess := programs build_status;
  shell := fun _ _ t => (t, 0%Z);
  sanity_check_dependencies := fun _ _ => mret ();
  clean_package_tree := fun _ => mret ();
  time_strftime := fun _ => "Packaged by py2deb on November 4, 2026 at 10:00";
  user_overrides := fun _ => [("depends", "python")]
|}.

Definition old_stdeb : Externals := externals "0.6.0" 0.
Definition new_stdeb : Externals := externals "0.6.0+git" 0.
Definition broken_build : Externals := externals "0.6.0" 2.

Definition no_script : Config := {|
  has_option := fun _ _ => false;
  get := fun _ _ => Raise (CollaboratorError "ConfigParser" "NoOptionError")
|}.

Definition failing_script : Config := {|
  has_option := fun _ _ => true;
  get := fun _ _ => Ok "exit 1"
|}.

Definition context : Context := {|
  package := foo;
  verbose := false;
  config := no_script;
  auto_install := false
|}.

Definition context_with_script : Context := {|
  package := foo;
  verbose := false;
  config := failing_script;
  auto_install := false
|}.

Definition world_of (t : FS.node) : world := World t ∅ [].

(** A package directory that has been Debianized, next to the archive
    of another package. *)
Definition with_other_archive : FS.node :=
  tree [("control", FS.File control)] [("otherpkg_1.0.deb", FS.File "!<arch>")].

End Sample.

(** ** What a computation leaves alone, and what it is seen to do *)

(** A computation preserves an observation of the world when the world
    it leaves, whether it returns or raises, shows what the world it
    started from showed. *)
Definition preserves {A B : Type} (obs : world -> B) (m : M A) : Prop :=
  forall w, obs (m w).2 = obs w.

Definition is_system (e : event) : bool :=
  match e with
  | System _ => true
  | _ => false
  end.

Definition is_exec (e : event) : bool :=
  match e with
  | Exec _ _ _ => true
  | _ => false
  end.

(** The tree that [debianize] hands to the Debianizer (lines 36 to
    38): without the [debian] directory when there is a control file in
    it, as it is otherwise. *)
Definition debianize_start (pkg : Package) (t : FS.node) : FS.node :=
  if FS.isfile (control_file pkg) t
  then FS.remove (directory pkg ++ ["debian"]) t
  else t.

(** The lint command of line 120. *)
Definition lintian_command (pathname : path) : string :=
  "lintian " +:+ Pipes.quote (FS.path_str pathname) +:+ " >&2".

(** A name in which [fnmatch] finds no special character. *)
Definition plain_name (s : string) : bool :=
  negb (Pipes.mem_char "*" s || Pipes.mem_char "?" s || Pipes.mem_char "[" s).

(** * Facts *)

(** ** Text *)

Module TextFacts.

Import Text.

Lemma append_cons c (s t : string) : String c s +:+ t = String c (s +:+ t).
Proof. reflexivity. Qed.

Lemma append_nil_l (s : string) : "" +:+ s = s.
Proof. reflexivity. Qed.

Lemma append_nil_r (s : string) : s +:+ "" = s.
Proof. induction s as [|c s IH]; [done|]. by rewrite append_cons, IH. Qed.

Lemma append_assoc (s t u : string) : (s +:+ t) +:+ u = s +:+ t +:+ u.
Proof.
  induction s as [|c s IH]; [done|]. by rewrite !append_cons, IH.
Qed.

Lemma unlines_app (xs ys : list string) :
  unlines (xs ++ ys) = unlines xs +:+ unlines ys.
Proof.
  induction xs as [|x xs IH]; [done|].
  cbn [unlines app]. by rewrite IH, !append_assoc.
Qed.

Lemma splitlines_nonempty c s : splitlines (String c s) <> [].
Proof.
  cbn [splitlines]. destruct (Ascii.eqb c LF); [done|].
  by destruct (splitlines s).
Qed.

Lemma newline_terminated_tail c d s :
  newline_terminated (String c (String d s)) = newline_terminated (String d s).
Proof. reflexivity. Qed.

(** Splitting a text whose lines are all terminated loses nothing. *)
Lemma unlines_splitlines s :
  newline_terminated s = true -> unlines (splitlines s) = s.
Proof.
  induction s as [|c s IH]; [done|]. intros Hnt.
  cbn [splitlines]. destruct (Ascii.eqb_spec c LF) as [->|Hc].
  - cbn [unlines]. rewrite append_nil_l. unfold nl at 1.
    rewrite append_cons, append_nil_l. f_equal.
    apply IH. destruct s; [done|]. by rewrite newline_terminated_tail in Hnt.
  - destruct s as [|d s].
    + cbn in Hnt. apply Ascii.eqb_eq in Hnt. done.
    + rewrite newline_terminated_tail in Hnt. specialize (IH Hnt).
      pose proof (splitlines_nonempty d s) as Hne.
      destruct (splitlines (String d s)) as [|l ls]; [done|].
      cbn [unlines] in *. by rewrite append_cons, IH.
Qed.

End TextFacts.

(** ** The control-file format *)

Module Deb822Facts.

Import Text TextFacts Deb822.

Lemma split_field_sound l n v :
  split_field l = Some (n, v) -> l = n +:+ ": " +:+ v.
Proof.
  revert n. induction l as [|c l IH]; intros n; [done|].
  cbn [split_field]. destruct (Ascii.eqb_spec c ":") as [->|_].
  - destruct l as [|d v']; [done|].
    destruct (Ascii.eqb_spec d " ") as [->|Hd].
    + intros [= <- <-]. done.
    + intros H. exfalso. revert H.
      destruct d as [[] [] [] [] [] [] [] []]; done.
  - destruct (split_field l) as [[n' v']|]; [|done].
    intros [= <- <-]. by rewrite append_cons, <-(IH n').
Qed.

Lemma field_line_sound l n v :
  field_line l = Some (n, v) -> l = n +:+ ": " +:+ v.
Proof.
  unfold field_line. intros H. apply split_field_sound.
  destruct (split_field l) as [[[|c n'] v']|]; done.
Qed.

Lemma dump_emit cur p : dump (emit cur p) = dump (emit cur []) +:+ dump p.
Proof.
  destruct cur as [[n v]|]; [|done].
  cbn [emit dump]. by rewrite append_nil_r, !append_assoc.
Qed.

(** A paragraph that parses is written back line by line. *)
Lemma dump_parse_fields ls : forall cur p,
  parse_fields cur ls = Ok p ->
  dump p = dump (emit cur []) +:+ unlines ls.
Proof.
  induction ls as [|l ls IH]; intros cur p.
  - cbn [parse_fields unlines]. intros [= <-]. by rewrite append_nil_r.
  - cbn [parse_fields unlines]. destruct (is_continuation l).
    + destruct cur as [[n v]|]; [|done]. intros H.
      rewrite (IH _ _ H). cbn [emit dump].
      by rewrite !append_nil_r, !append_assoc.
    + destruct (field_line l) as [[n v]|] eqn:Hl; [|done].
      destruct (parse_fields (Some _) ls) as [q|] eqn:Hq; [|done].
      intros [= <-]. rewrite dump_emit, (IH _ _ Hq).
      rewrite (field_line_sound _ _ _ Hl). cbn [emit dump].
      by rewrite !append_nil_r, !append_assoc.
Qed.

Lemma dump_parse_paragraph ls p :
  parse_paragraph ls = Ok p -> dump p = unlines ls.
Proof. intros H. by rewrite (dump_parse_fields _ _ _ H). Qed.

Lemma leading_block_spec ls b rest :
  leading_block ls = (b, rest) -> ls = b ++ rest /\ no_blank b = true.
Proof.
  revert b. induction ls as [|l ls IH]; intros b.
  - by intros [= <- <-].
  - cbn [leading_block]. destruct (is_blank l) eqn:Hl.
    + by intros [= <- <-].
    + destruct (leading_block ls) as [b' rest'].
      intros [= <- <-]. destruct (IH b' eq_refl) as [-> Hb].
      split; [done|]. cbn. by rewrite Hl.
Qed.

Lemma split_blocks_no_blank b : forall cur rest,
  no_blank b = true ->
  split_blocks cur (b ++ rest) = split_blocks (cur ++ b) rest.
Proof.
  induction b as [|l b IH]; intros cur rest Hb.
  - by rewrite app_nil_r.
  - cbn in Hb. apply andb_prop in Hb as [Hl Hb].
    cbn [app split_blocks]. apply negb_true_iff in Hl. rewrite Hl.
    rewrite IH by done. by rewrite <-app_assoc.
Qed.

Lemma split_blocks_two b0 sep b1 :
  b0 <> [] -> b1 <> [] -> is_blank sep = true ->
  no_blank b0 = true -> no_blank b1 = true ->
  split_blocks [] (b0 ++ sep :: b1) = [b0; b1].
Proof.
  intros H0 H1 Hsep Hb0 Hb1.
  rewrite split_blocks_no_blank by done. cbn [app split_blocks].
  rewrite Hsep. destruct b0 as [|l0 b0]; [done|]. f_equal.
  rewrite <-(app_nil_r b1) at 1. rewrite split_blocks_no_blank by done.
  cbn. by destruct b1.
Qed.

Lemma two_blocks_spec ls :
  two_blocks ls = true ->
  exists b0 b1, ls = b0 ++ "" :: b1 /\ split_blocks [] ls = [b0; b1].
Proof.
  unfold two_blocks. destruct (leading_block ls) as [b0 rest] eqn:Hlb.
  destruct b0 as [|l0 b0]; [done|]. destruct rest as [|sep b1]; [done|].
  destruct b1 as [|l1 b1]; [done|]. intros [Hsep Hb1]%andb_prop.
  apply leading_block_spec in Hlb as [-> Hb0].
  exists (l0 :: b0), (l1 :: b1). destruct sep; [|done].
  split; [done|]. by apply split_blocks_two.
Qed.

End Deb822Facts.

(** ** The field merger *)

Module FieldMergerFacts.

Import Text Deb822 FieldMerger.

Lemma same_field_refl a : same_field a a = true.
Proof. apply String.eqb_refl. Qed.

Lemma same_field_sym a b : same_field a b = same_field b a.
Proof. apply String.eqb_sym. Qed.

Lemma same_field_trans a b c :
  same_field a b = true -> same_field b c = true -> same_field a c = true.
Proof.
  unfold same_field. rewrite !String.eqb_eq. congruence.
Qed.

Lemma same_field_left a b c :
  same_field a b = true -> same_field a c = same_field b c.
Proof.
  unfold same_field. rewrite String.eqb_eq. by intros ->.
Qed.

Lemma get_field_set_field k v p k' :
  get_field k' (set_field k v p) =
  if same_field k k' then Some v else get_field k' p.
Proof.
  induction p as [|[n x] p IH]; cbn [set_field get_field].
  - done.
  - destruct (same_field n k) eqn:Hnk; cbn [get_field].
    + rewrite (same_field_left _ _ _ Hnk). by destruct (same_field k k').
    + destruct (same_field n k') eqn:Hnk'; [|done].
      destruct (same_field k k') eqn:Hkk'; [|done].
      rewrite same_field_sym in Hkk'.
      rewrite (same_field_trans _ _ _ Hnk' Hkk') in Hnk. done.
Qed.

Lemma merge_control_fields_snoc p ov k v :
  merge_control_fields p (ov ++ [(k, v)]) =
  set_field k v (merge_control_fields p ov).
Proof. unfold merge_control_fields. by rewrite fold_left_app. Qed.

(** A merged paragraph gives every overridden field its last override
    and every other field its old value. *)
Lemma get_field_merge k ov : forall p,
  get_field k (merge_control_fields p ov) =
  match override_of k ov with
  | Some v => Some v
  | None => get_field k p
  end.
Proof.
  induction ov as [|[k' v'] ov IH] using rev_ind; intros p; [done|].
  rewrite merge_control_fields_snoc, get_field_set_field.
  unfold override_of. rewrite reverse_snoc. cbn [get_field].
  destruct (same_field k' k); [done|]. apply IH.
Qed.

End FieldMergerFacts.

(** ** File-name patterns *)

Module FnmatchFacts.

Import Text TextFacts Fnmatch.

Lemma find_close_get s k :
  find_close s = Some k -> String.get k s = Some "]"%char.
Proof.
  revert k. induction s as [|c s IH]; intros k; [done|].
  cbn [find_close]. destruct (Ascii.eqb_spec c "]") as [->|_].
  - by intros [= <-].
  - destruct (find_close s) as [k'|]; [|done].
    intros [= <-]. cbn. by apply IH.
Qed.

Lemma get_drop_chars j : forall s k,
  String.get k (drop_chars j s) = String.get (j + k) s.
Proof.
  induction j as [|j IH]; intros s k; [by destruct s|].
  destruct s as [|c s]; [done|]. cbn. apply IH.
Qed.

Lemma set_end_get s j :
  set_end s = Some j -> String.get j s = Some "]"%char.
Proof.
  unfold set_end. set (j0 := match s with String "!" _ => 1 | _ => 0 end).
  set (j1 := match drop_chars j0 s with String "]" _ => S j0 | _ => j0 end).
  destruct (find_close (drop_chars j1 s)) as [k|] eqn:Hk; [|done].
  intros [= <-]. apply find_close_get in Hk.
  by rewrite get_drop_chars in Hk.
Qed.

Lemma get_append_bound (a t : string) j c :
  String.get j (a +:+ t) = Some c ->
  (forall k, String.get k t <> Some c) ->
  j < String.length a.
Proof.
  intros Hget Ht. revert j Hget.
  induction a as [|d a IH]; intros j Hget.
  - rewrite append_nil_l in Hget. by destruct (Ht j).
  - rewrite append_cons in Hget. destruct j as [|j]; cbn; [lia|].
    cbn in Hget. apply IH in Hget. lia.
Qed.

Lemma archive_tail_no_close k : String.get k archive_tail <> Some "]"%char.
Proof. do 7 (destruct k as [|k]; [done|]). done. Qed.

(** The tail of the archive pattern is translated as it stands,
    whatever name precedes it. *)
Lemma translate_go_tail n : forall skip,
  skip <= String.length n ->
  exists ts,
    translate_go skip (n +:+ archive_tail) =
    ts ++ [Lit "."; Lit "d"; Lit "e"; Lit "b"]%char.
Proof.
  induction n as [|c n IH]; intros skip Hskip.
  - cbn in Hskip. assert (skip = 0) as -> by lia.
    by exists [Lit "_"; Star]%char.
  - rewrite append_cons. cbn [translate_go]. destruct skip as [|k].
    + assert (0 <= String.length n) as H0 by lia.
      destruct (IH 0 H0) as [ts Hts].
      destruct (Ascii.eqb c "*"); [exists (Star :: ts); by rewrite Hts|].
      destruct (Ascii.eqb c "?"); [exists (AnyChar :: ts); by rewrite Hts|].
      destruct (Ascii.eqb c "[");
        [|exists (Lit c :: ts); by rewrite Hts].
      destruct (set_end (n +:+ archive_tail)) as [j|] eqn:Hj;
        [|exists (Lit c :: ts); by rewrite Hts].
      apply set_end_get in Hj.
      apply get_append_bound in Hj; [|apply archive_tail_no_close].
      destruct (IH (S j)) as [ts' Hts']; [lia|].
      eexists (Set_ _ :: ts'). by rewrite Hts'.
    + cbn in Hskip. apply IH. lia.
Qed.

Lemma endswith_refl s : endswith s s = true.
Proof. destruct s; cbn [endswith]; by rewrite String.eqb_refl. Qed.

Lemma endswith_cons c s suffix :
  endswith s suffix = true -> endswith (String c s) suffix = true.
Proof. intros Hs. cbn [endswith]. rewrite Hs. apply orb_true_r. Qed.

Lemma glob_literal suffix : forall s,
  glob (literal suffix) s = true -> s = suffix.
Proof.
  induction suffix as [|c suffix IH]; intros [|d s]; cbn; try done.
  intros [Hc Hs]%andb_prop. apply Ascii.eqb_eq in Hc as ->.
  by rewrite (IH _ Hs).
Qed.

(** A name that matches a pattern ending in literal text ends in that
    text. *)
Lemma glob_literal_suffix suffix ts : forall s,
  glob (ts ++ literal suffix) s = true -> endswith s suffix = true.
Proof.
  induction ts as [|t ts IH]; intros s.
  - intros ->%glob_literal. apply endswith_refl.
  - destruct t as [| |stuff|c]; cbn [app glob].
    + induction s as [|d s IHs].
      * rewrite orb_false_r. apply IH.
      * intros [Hs|Hs]%orb_prop; [by apply IH|].
        apply endswith_cons. by apply IHs.
    + destruct s as [|d s]; [done|]. intros Hs.
      apply endswith_cons. by apply IH.
    + destruct s as [|d s]; [done|]. intros [_ Hs]%andb_prop.
      apply endswith_cons. by apply IH.
    + destruct s as [|d s]; [done|]. intros [_ Hs]%andb_prop.
      apply endswith_cons. by apply IH.
Qed.

(** Only names ending in [.deb] match the archive pattern, so the
    test of line 115 refuses no name that line 118 would accept. *)
Lemma matches_archive_endswith filename n :
  matches filename (n +:+ archive_tail) = true ->
  endswith filename ".deb" = true.
Proof.
  unfold matches, translate.
  destruct (translate_go_tail n 0) as [ts ->]; [lia|].
  apply (glob_literal_suffix ".deb").
Qed.

(** A package name without an opening bracket gives a pattern without
    bracket expressions, which always compiles. *)
Lemma plain_archive_pattern_compiles n :
  Pipes.mem_char "[" n = false ->
  compiles (n +:+ archive_tail) = true.
Proof.
  unfold compiles, translate. induction n as [|c n IH]; [done|].
  cbn [Pipes.mem_char]. rewrite Ascii.eqb_sym.
  intros [Hc Hn]%orb_false_elim. rewrite append_cons. cbn [translate_go].
  rewrite Hc. destruct (Ascii.eqb c "*"); [by apply IH|].
  destruct (Ascii.eqb c "?"); by apply IH.
Qed.

End FnmatchFacts.

(** ** The file system *)

Module FSFacts.

Import FS.

Lemma find_entry_alter_entry c f es :
  find_entry c (alter_entry c f es) = f <$> find_entry c es.
Proof.
  induction es as [|[k m] es IH]; [done|].
  cbn [alter_entry find_entry].
  destruct (String.eqb k c) eqn:Hk; cbn [find_entry]; by rewrite Hk.
Qed.

Lemma find_entry_remove_entry c es : find_entry c (remove_entry c es) = None.
Proof.
  induction es as [|[k m] es IH]; [done|].
  unfold remove_entry in *. cbn [List.filter fst].
  destruct (String.eqb k c) eqn:Hk; cbn [negb find_entry]; [done|].
  by rewrite Hk.
Qed.

Lemma find_entry_snoc c es m :
  find_entry c es = None -> find_entry c (es ++ [(c, m)]) = Some m.
Proof.
  induction es as [|[k m'] es IH]; cbn [app find_entry].
  - by rewrite String.eqb_refl.
  - destruct (String.eqb k c); [done|]. apply IH.
Qed.

Lemma lookup_app p q t :
  lookup (p ++ q) t = lookup p t ≫= lookup q.
Proof.
  revert t. induction p as [|c p IH]; intros t; [done|].
  cbn [app lookup]. destruct t as [|es]; [done|].
  destruct (find_entry c es); [apply IH|done].
Qed.

(** A file lies in a directory. *)
Lemma isfile_isdir p c t : isfile (p ++ [c]) t = true -> isdir p t = true.
Proof.
  unfold isfile, isdir. rewrite lookup_app.
  destruct (lookup p t) as [[|es]|]; done.
Qed.

(** Nothing is left at a path that has been removed. *)
Lemma lookup_remove p c t : lookup (p ++ [c]) (remove (p ++ [c]) t) = None.
Proof.
  revert t. induction p as [|d p IH]; intros t.
  - destruct t as [|es]; [done|]. cbn. by rewrite find_entry_remove_entry.
  - destruct t as [|es]; [by destruct p|].
    assert (remove ((d :: p) ++ [c]) (Dir es)
            = Dir (alter_entry d (remove (p ++ [c])) es)) as ->
      by by destruct p.
    cbn [app lookup]. rewrite find_entry_alter_entry.
    destruct (find_entry d es); [apply IH|done].
Qed.

Lemma write_step c d p data es :
  write (c :: d :: p) data (Dir es) =
  match find_entry c es with
  | Some m =>
      match write (d :: p) data m with
      | Some m' => Some (Dir (alter_entry c (fun _ => m') es))
      | None => None
      end
  | None => None
  end.
Proof. reflexivity. Qed.

(** What has been written is read back. *)
Lemma read_write p data : forall t t',
  write p data t = Some t' -> read p t' = Some data.
Proof.
  unfold read. induction p as [|c p IH]; intros t t'; [by destruct t|].
  destruct t as [|es]; [by destruct p|].
  destruct p as [|d p].
  - cbn [write]. destruct (find_entry c es) as [[|]|] eqn:Hc; try done.
    + intros [= <-]. cbn [lookup]. by rewrite find_entry_alter_entry, Hc.
    + intros [= <-]. cbn [lookup]. by rewrite find_entry_snoc.
  - rewrite write_step. destruct (find_entry c es) as [m|] eqn:Hc; [|done].
    destruct (write (d :: p) data m) as [m'|] eqn:Hm; [|done].
    intros [= <-]. cbn [lookup]. rewrite find_entry_alter_entry, Hc.
    apply (IH _ _ Hm).
Qed.

(** A file that can be read can be written. *)
Lemma write_readable p new : forall c t old,
  read (c :: p) t = Some old -> is_Some (write (c :: p) new t).
Proof.
  unfold read. induction p as [|d p IH]; intros c t old.
  - destruct t as [|es]; [done|]. cbn [lookup write].
    destruct (find_entry c es) as [[|]|]; done.
  - destruct t as [|es]; [done|]. rewrite write_step. cbn [lookup].
    destruct (find_entry c es) as [m|]; [|done].
    intros [m' ->]%IH. done.
Qed.

End FSFacts.

(** ** The pipeline *)

Section BackendFacts.

Context `{Externals}.

Import Text TextFacts Deb822 Deb822Facts FieldMerger FieldMergerFacts.

Lemma bind_ok {A B} (m : M A) (f : A -> M B) w a w' :
  m w = (Ok a, w') -> (m ≫= f) w = f a w'.
Proof. unfold mbind, M_bind. by intros ->. Qed.

Lemma bind_raise {A B} (m : M A) (f : A -> M B) w e w' :
  m w = (Raise e, w') -> (m ≫= f) w = (Raise e, w').
Proof. unfold mbind, M_bind. by intros ->. Qed.

Lemma control_file_cons pkg : exists c p, control_file pkg = c :: p.
Proof.
  unfold control_file. destruct (directory pkg) as [|c p]; by eauto.
Qed.

Lemma handle_write_ok p data t env tr old :
  p <> [] ->
  FS.read p t = Some old ->
  exists t',
    handle_write p data (World t env tr) = (Ok (), World t' env tr)
    /\ FS.read p t' = Some (old +:+ data).
Proof.
  intros Hp Hold. destruct p as [|c p]; [done|].
  destruct (FSFacts.write_readable p (old +:+ data) c _ _ Hold) as [t' Ht].
  exists t'. unfold handle_write. cbn [fs environ trace]. rewrite Hold, Ht.
  split; [done|]. by apply FSFacts.read_write in Ht.
Qed.

Lemma open_for_writing_ok p w old :
  p <> [] ->
  FS.read p (fs w) = Some old ->
  exists t,
    open_for_writing p w
    = (Ok (), World t (environ w) (trace w ++ [Opened p "w"]))
    /\ FS.read p t = Some "".
Proof.
  intros Hp Hold. destruct p as [|c p]; [done|].
  destruct (FSFacts.write_readable p "" c _ _ Hold) as [t Ht].
  exists t. unfold open_for_writing. rewrite Ht.
  split; [done|]. by apply FSFacts.read_write in Ht.
Qed.

(** What [patch_control] does to a control file of two paragraphs. *)
Lemma patch_control_two pkg cfg w text p0 p1 :
  FS.read (control_file pkg) (fs w) = Some text ->
  iter_paragraphs text = Ok [p0; p1] ->
  exists t,
    patch_control pkg cfg w
    = (Ok (),
       World t (environ w)
         (trace w ++
          [Log DEBUG "%s: Patching control file of %s" [name pkg];
           Opened (control_file pkg) "r";
           Opened (control_file pkg) "w";
           Log DEBUG "%s: Control file has been patched." [name pkg]]))
    /\ FS.read (control_file pkg) t
       = Some (control_text p0 (patched pkg p1)).
Proof.
  intros Hread Hparse.
  assert (control_file pkg <> []) as Hne
    by (destruct (control_file_cons pkg) as (c & p & ->); done).
  unfold patch_control.
  set (w1 := World (fs w) (environ w)
               (trace w ++ [Log DEBUG "%s: Patching control file of %s"
                              [name pkg]])).
  erewrite (bind_ok _ _ w () w1) by reflexivity.
  set (w2 := World (fs w) (environ w)
               (trace w1 ++ [Opened (control_file pkg) "r"])).
  erewrite (bind_ok _ _ w1 text w2)
    by (unfold read_file; cbn [fs w1]; by rewrite Hread).
  erewrite (bind_ok _ _ w2 [p0; p1] w2) by (unfold lift; by rewrite Hparse).
  cbn [length Nat.eqb negb].
  destruct (open_for_writing_ok _ w2 text Hne Hread) as (t3 & Hopen & Hr3).
  erewrite bind_ok by exact Hopen.
  cbn [index lookup list_lookup insert list_insert].
  do 3 (erewrite bind_ok by reflexivity).
  edestruct (handle_write_ok (control_file pkg) (dump p0)) as (t4 & Hw4 & Hr4);
    [done|exact Hr3|].
  erewrite bind_ok by exact Hw4.
  edestruct (handle_write_ok (control_file pkg) nl) as (t5 & Hw5 & Hr5);
    [done|exact Hr4|].
  erewrite bind_ok by exact Hw5.
  erewrite bind_ok by reflexivity.
  edestruct (handle_write_ok (control_file pkg) (dump (patched pkg p1)))
    as (t6 & Hw6 & Hr6); [done|exact Hr5|].
  erewrite bind_ok by exact Hw6.
  exists t6. split.
  - unfold logger_debug, emit_event. cbn [fs environ trace w2 w1].
    by rewrite <-!app_assoc.
  - rewrite Hr6. unfold control_text.
    by rewrite append_nil_l, append_assoc.
Qed.

(** What [patch_control] does to a control file of any other number
    of paragraphs. *)
Lemma patch_control_other pkg cfg w text ps :
  FS.read (control_file pkg) (fs w) = Some text ->
  iter_paragraphs text = Ok ps ->
  length ps <> 2 ->
  patch_control pkg cfg w
  = (Raise (BackendFailed
              ("Unexpected control file format for " +:+ name pkg +:+ "!")),
     World (fs w) (environ w)
       (trace w ++
        [Log DEBUG "%s: Patching control file of %s" [name pkg];
         Opened (control_file pkg) "r"])).
Proof.
  intros Hread Hparse Hlen. unfold patch_control.
  set (w1 := World (fs w) (environ w)
               (trace w ++ [Log DEBUG "%s: Patching control file of %s"
                              [name pkg]])).
  erewrite (bind_ok _ _ w () w1) by reflexivity.
  set (w2 := World (fs w) (environ w)
               (trace w1 ++ [Opened (control_file pkg) "r"])).
  erewrite (bind_ok _ _ w1 text w2)
    by (unfold read_file; cbn [fs w1]; by rewrite Hread).
  erewrite (bind_ok _ _ w2 ps w2) by (unfold lift; by rewrite Hparse).
  apply Nat.eqb_neq in Hlen. rewrite Hlen. cbn [negb].
  unfold raise, w2, w1. cbn [trace]. by rewrite <-app_assoc.
Qed.

(** Without a control file the Debianizer starts from the tree as it
    is. *)
Lemma debianize_fresh pkg v w :
  FS.isfile (control_file pkg) (fs w) = false ->
  debianize pkg v w = debianize_outcome pkg v (environ w) (fs w) (trace w).
Proof.
  intros Hfile. unfold debianize, debianize_outcome.
  erewrite (bind_ok _ _ w false w)
    by (unfold os_path_isfile; by rewrite Hfile).
  erewrite (bind_ok _ _ w () w) by reflexivity.
  erewrite bind_ok by reflexivity.
  unfold mbind, M_bind, run. cbn [fs environ trace].
  destruct (subprocess _ _ _ _ _) as [t status].
  destruct (nonzero status); unfold raise, logger_debug, emit_event;
    cbn [fs environ trace debianize_events]; by rewrite <-!app_assoc.
Qed.

(** With a control file the [debian] directory goes first, behind a
    warning, and the Debianizer starts from the tree without it. *)
Lemma debianize_stale pkg v w :
  FS.isfile (control_file pkg) (fs w) = true ->
  debianize pkg v w
  = debianize_outcome pkg v (environ w)
      (FS.remove (directory pkg ++ ["debian"]) (fs w))
      (trace w ++
       [Log WARNING
          "%s: Package was previously Debianized: Overwriting existing files!"
          [name pkg];
        Removed (directory pkg ++ ["debian"])]).
Proof.
  intros Hfile. unfold debianize, debianize_outcome.
  erewrite (bind_ok _ _ w true w)
    by (unfold os_path_isfile; by rewrite Hfile).
  assert (FS.isdir (directory pkg ++ ["debian"]) (fs w) = true) as Hdir.
  { apply (FSFacts.isfile_isdir _ "control").
    unfold control_file in Hfile. by rewrite <-app_assoc. }
  erewrite bind_ok; cycle 1.
  { erewrite bind_ok by reflexivity.
    unfold shutil_rmtree, FS.rmtree. cbn [fs environ trace].
    rewrite Hdir. reflexivity. }
  erewrite bind_ok by reflexivity.
  unfold mbind, M_bind, run. cbn [fs environ trace].
  destruct (subprocess _ _ _ _ _) as [t status].
  destruct (nonzero status); unfold raise, logger_debug, emit_event;
    cbn [fs environ trace debianize_events]; by rewrite <-!app_assoc.
Qed.

(** The scan stops at the first name that matches the pattern of the
    archive and changes neither the environment nor, before the lint
    run, the file system. *)
Lemma scan_find pkg parent filenames :
  Fnmatch.compiles (archive_pattern pkg) = true ->
  forall w,
    (scan pkg parent filenames w).1
    = match List.find (is_archive pkg) filenames with
      | Some filename => Ok (parent ++ [filename])
      | None => Raise (not_found pkg)
      end
    /\ environ (scan pkg parent filenames w).2 = environ w.
Proof.
  intros Hpat. induction filenames as [|filename rest IH]; intros w; [done|].
  cbn [scan List.find]. unfold is_archive at 1.
  destruct (Fnmatch.matches filename (archive_pattern pkg)) eqn:Hmatch.
  - rewrite (FnmatchFacts.matches_archive_endswith _ _ Hmatch).
    erewrite bind_ok by reflexivity.
    erewrite bind_ok
      by (unfold lift, Fnmatch.fnmatch; rewrite Hpat, Hmatch; reflexivity).
    lazy beta iota. erewrite bind_ok by reflexivity.
    unfold mbind, M_bind, os_system. cbn [fs environ trace].
    by destruct (shell _ _ _) as [t status].
  - destruct (endswith filename ".deb"); [|apply IH].
    erewrite bind_ok by reflexivity.
    erewrite bind_ok
      by (unfold lift, Fnmatch.fnmatch; rewrite Hpat, Hmatch; reflexivity).
    lazy beta iota.
    destruct (IH (World (fs w) (environ w)
                    (trace w ++ [Log DEBUG "%s: Considering file: %s"
                                   [name pkg; FS.path_str (parent ++ [filename])]])))
      as [-> ->].
    done.
Qed.

(** [dpkg_buildpackage] up to the scan. *)
Lemma dpkg_buildpackage_run pkg v w :
  dpkg_buildpackage pkg v w
  = let env := build_environ v (environ w) in
    let '(t, status) :=
      subprocess build_command (directory pkg) v env (fs w) in
    let w' := World t env (trace w ++ build_events pkg v) in
    if nonzero status then (Raise (build_failed pkg), w')
    else
      (logger_debug "%s: Scanning for generated Debian packages .."
         [name pkg];;
       filenames ← os_listdir (FS.dirname (directory pkg));
       scan pkg (FS.dirname (directory pkg)) filenames) w'.
Proof.
  unfold dpkg_buildpackage, build_environ.
  erewrite bind_ok by reflexivity.
  destruct v, (String.eqb stdeb_version "0.6.0+git");
    (erewrite bind_ok by reflexivity);
    (erewrite bind_ok by reflexivity);
    unfold mbind at 1, M_bind at 1, run at 1; cbn [fs environ trace];
    fold build_command;
    destruct (subprocess _ _ _ _ _) as [t status];
    unfold build_events; rewrite <-!app_assoc; cbn [app];
    by destruct (nonzero status).
Qed.

Lemma scan_environ pkg parent filenames : forall w,
  environ (scan pkg parent filenames w).2 = environ w.
Proof.
  induction filenames as [|filename rest IH]; intros w; [done|].
  cbn [scan]. destruct (endswith filename ".deb"); [|apply IH].
  erewrite bind_ok by reflexivity.
  unfold mbind at 1, M_bind at 1, lift at 1.
  destruct (Fnmatch.fnmatch filename (archive_pattern pkg)) as [[|]|e];
    [| |done].
  - erewrite bind_ok by reflexivity.
    unfold mbind, M_bind, os_system. cbn [fs environ trace].
    by destruct (shell _ _ _) as [t status].
  - by rewrite IH.
Qed.

Lemma dpkg_buildpackage_environ pkg v w :
  environ (dpkg_buildpackage pkg v w).2 = build_environ v (environ w).
Proof.
  rewrite dpkg_buildpackage_run. cbn zeta.
  destruct (subprocess _ _ _ _ _) as [t status].
  destruct (nonzero status); [done|].
  erewrite bind_ok by reflexivity.
  unfold mbind, M_bind, os_listdir. cbn [fs environ trace].
  destruct (FS.listdir _ t) as [filenames|]; [|done].
  by rewrite scan_environ.
Qed.

Lemma run_stages_abort ss : forall k stage e w wk w',
  ss !! k = Some stage ->
  run_stages (take k ss) w = (Ok (), wk) ->
  stage wk = (Raise e, w') ->
  run_stages ss w = (Raise e, w').
Proof.
  induction ss as [|s ss IH]; intros k stage e w wk w'; [done|].
  destruct k as [|k]; cbn [lookup list_lookup take run_stages].
  - intros [= ->] [= ->] ->. done.
  - intros Hk. destruct (s w) as [[[]|e0] w0]; [|done].
    by apply IH.
Qed.

Lemma build_run_stages context w :
  build context w
  = match run_stages (stages context) w with
    | (Ok _, w') =>
        dpkg_buildpackage (package context) (verbose context) w'
    | (Raise e, w') => (Raise e, w')
    end.
Proof.
  unfold build, stages, run_stages, mbind, M_bind.
  repeat match goal with
         | |- context [match ?m ?x with _ => _ end] =>
             lazymatch type of m with
             | M unit => destruct (m x) as [[[]|?] ?]; try reflexivity
             end
         end.
Qed.

End BackendFacts.

(** * The claims *)

Section Claims.

Context `{Externals}.

Import Text TextFacts Deb822 Deb822Facts FieldMerger FieldMergerFacts.

(** C2: when the control file parses into a number of paragraphs other
    than two, [patch_control] raises [BackendFailed]; when it parses
    into two, the stage gets past the format check, opens the file for
    writing and returns. *)
Theorem patch_control_format_check pkg cfg w text ps :
  FS.read (control_file pkg) (fs w) = Some text ->
  iter_paragraphs text = Ok ps ->
  (length ps <> 2 ->
   (patch_control pkg cfg w).1
   = Raise (BackendFailed
              ("Unexpected control file format for " +:+ name pkg +:+ "!")))
  /\ (length ps = 2 ->
      (patch_control pkg cfg w).1 = Ok ()
      /\ In (Opened (control_file pkg) "w") (trace (patch_control pkg cfg w).2)).
Proof.
  intros Hread Hparse. split; intros Hlen.
  - by rewrite (patch_control_other _ _ _ _ _ Hread Hparse Hlen).
  - destruct ps as [|p0 [|p1 [|p2 ps]]]; try done.
    destruct (patch_control_two pkg cfg _ _ _ _ Hread Hparse) as (t & -> & _).
    split; [done|]. cbn [snd trace]. rewrite in_app_iff. right.
    cbn. tauto.
Qed.

(** C10: when the paragraph count is not two, [patch_control] raises
    [BackendFailed] and leaves the file system as it found it: the
    only file event of the stage is the opening of the control file
    for reading. *)
Theorem patch_control_format_error_keeps_file pkg cfg w text ps :
  FS.read (control_file pkg) (fs w) = Some text ->
  iter_paragraphs text = Ok ps ->
  length ps <> 2 ->
  (exists msg, (patch_control pkg cfg w).1 = Raise (BackendFailed msg))
  /\ fs (patch_control pkg cfg w).2 = fs w
  /\ FS.read (control_file pkg) (fs (patch_control pkg cfg w).2) = Some text
  /\ trace (patch_control pkg cfg w).2
     = trace w ++ [Log DEBUG "%s: Patching control file of %s" [name pkg];
                   Opened (control_file pkg) "r"].
Proof.
  intros Hread Hparse Hlen.
  rewrite (patch_control_other _ _ _ _ _ Hread Hparse Hlen).
  cbn [fst snd fs trace]. eauto.
Qed.

(** C7: [patch_control] merges the computed overrides ([Package],
    [Description], [Depends]) into the binary paragraph first and
    applies the user-override pass to the result; the control file
    written back holds that paragraph, in which every field set by
    both has the user's value. *)
Theorem user_overrides_applied_last pkg cfg w text p0 p1 :
  FS.read (control_file pkg) (fs w) = Some text ->
  iter_paragraphs text = Ok [p0; p1] ->
  let written :=
    patch_control_file pkg
      (merge_control_fields p1
         [("Package", debian_name pkg);
          ("Description",
           time_strftime "Packaged by py2deb on %B %e, %Y at %H:%M");
          ("Depends", join ", " (debian_dependencies pkg))]) in
  (patch_control pkg cfg w).1 = Ok ()
  /\ FS.read (control_file pkg) (fs (patch_control pkg cfg w).2)
     = Some (control_text p0 written)
  /\ forall k computed user,
       override_of k (computed_overrides pkg) = Some computed ->
       override_of k (user_overrides (name pkg)) = Some user ->
       get_field k written = Some user.
Proof.
  intros Hread Hparse written.
  destruct (patch_control_two pkg cfg _ _ _ _ Hread Hparse) as (t & -> & Ht).
  split; [done|]. split; [exact Ht|].
  intros k computed user _ Huser. unfold written, patch_control_file.
  by rewrite get_field_merge, Huser.
Qed.

(** C9: for every well-formed two-paragraph control document, the
    dumps of its two parsed paragraphs, joined by one blank line as
    [patch_control] writes them, are the document again. *)
Theorem control_text_roundtrip x :
  well_formed_document x = true ->
  exists p0 p1, iter_paragraphs x = Ok [p0; p1] /\ control_text p0 p1 = x.
Proof.
  unfold well_formed_document, parses, iter_paragraphs.
  intros [[Hnl Hlayout]%andb_prop Hparses]%andb_prop.
  destruct (two_blocks_spec _ Hlayout) as (b0 & b1 & Hlines & Hblocks).
  rewrite Hblocks in *. cbn [parse_blocks] in *.
  destruct (parse_paragraph b0) as [p0|] eqn:H0; [|done].
  destruct (parse_paragraph b1) as [p1|] eqn:H1; [|done].
  exists p0, p1. split; [done|]. unfold control_text.
  rewrite (dump_parse_paragraph _ _ H0), (dump_parse_paragraph _ _ H1).
  rewrite <-(unlines_splitlines x Hnl), Hlines, unlines_app.
  cbn [unlines]. by rewrite append_nil_l.
Qed.

(** C1: [build] runs debianize, the control-file patch, the script
    hook, the dependency check, the tree cleaner and the native build
    in this order, each on the world the one before has left; when a
    stage raises, [build] raises the same error and ends in the world
    that this stage has left, so that no later stage has run. *)
Theorem build_runs_stages_in_order context w :
  stages context
  = [debianize (package context) (verbose context);
     patch_control (package context) (config context);
     apply_script (package context) (config context) (verbose context);
     sanity_check_dependencies (name (package context))
       (auto_install context);
     clean_package_tree (directory (package context))]
  /\ build context w
     = match run_stages (stages context) w with
       | (Ok _, w') =>
           dpkg_buildpackage (package context) (verbose context) w'
       | (Raise e, w') => (Raise e, w')
       end
  /\ forall k stage e wk w',
       stages context !! k = Some stage ->
       run_stages (take k (stages context)) w = (Ok (), wk) ->
       stage wk = (Raise e, w') ->
       build context w = (Raise e, w').
Proof.
  split; [done|]. split; [apply build_run_stages|].
  intros k stage e wk w' Hk Hprefix Hstage. rewrite build_run_stages.
  by rewrite (run_stages_abort _ _ _ _ _ _ _ Hk Hprefix Hstage).
Qed.

(** C3, as the code has it: when the package directory holds a
    [debian/control] file, [debianize] logs a warning, removes the
    [debian] directory, and only then runs the Debianizer, on a tree
    in which nothing is left at [debian]. *)
Theorem debianize_removes_debianized_tree pkg v w :
  FS.isfile (control_file pkg) (fs w) = true ->
  let cleaned := FS.remove (directory pkg ++ ["debian"]) (fs w) in
  FS.lookup (directory pkg ++ ["debian"]) cleaned = None
  /\ debianize pkg v w
     = debianize_outcome pkg v (environ w) cleaned
         (trace w ++
          [Log WARNING
             "%s: Package was previously Debianized: Overwriting existing files!"
             [name pkg];
           Removed (directory pkg ++ ["debian"])]).
Proof.
  intros Hfile cleaned. split.
  - apply FSFacts.lookup_remove.
  - by apply debianize_stale.
Qed.

Lemma debianize_outcome_exec pkg v env start before :
  In (Exec (join " " debianize_command) (directory pkg) v)
     (trace (debianize_outcome pkg v env start before).2).
Proof.
  unfold debianize_outcome, debianize_events.
  destruct (subprocess _ _ _ _ _) as [t status].
  destruct (nonzero status); cbn [snd trace];
    rewrite !in_app_iff; cbn [In]; tauto.
Qed.

Lemma path_str_not_flag p c :
  FS.path_str (p ++ [c]) <> "--ignore-install-requires".
Proof.
  unfold FS.path_str. destruct (p ++ [c]) as [|d q] eqn:Hq.
  - by destruct p.
  - cbn [map String.concat]. by destruct (map _ q).
Qed.

(** C4: the command line of the Debianizer holds the flag
    [--ignore-install-requires] exactly when the stdeb version string
    equals [0.6.0], and this is the command line that [debianize]
    runs. *)
Theorem debianize_flag_iff_old_stdeb :
  (In "--ignore-install-requires" debianize_command
   <-> stdeb_version = "0.6.0")
  /\ forall pkg v w,
       In (Exec (join " " debianize_command) (directory pkg) v)
          (trace (debianize pkg v w).2).
Proof.
  split.
  - unfold debianize_command.
    pose proof (path_str_not_flag (sys_prefix ++ ["bin"]) "python") as Hp.
    rewrite <-app_assoc in Hp. cbn [app] in Hp.
    destruct (String.eqb_spec stdeb_version "0.6.0") as [->|Hv].
    + split; [done|]. intros _. rewrite in_app_iff. right. by left.
    + split; [|done]. cbn [In]. intros [?|[?|[?|[?|[]]]]]; done.
  - intros pkg v w.
    destruct (FS.isfile (control_file pkg) (fs w)) eqn:Hfile.
    + rewrite (debianize_stale _ _ _ Hfile). apply debianize_outcome_exec.
    + rewrite (debianize_fresh _ _ _ Hfile). apply debianize_outcome_exec.
Qed.

(** C5: after a native build that exits with status zero, the scan
    lists the parent of the package directory and returns the path of
    the first listed name that matches [<debian_name>_*.deb]; a name
    that does not match (such as [otherpkg_1.0.deb] for [pydeb-foo])
    is never returned; when no listed name matches, the scan raises
    [BackendFailed]. *)
Theorem artifact_scan_returns_first_match pkg v w t filenames :
  Fnmatch.compiles (debian_name pkg +:+ "_*.deb") = true ->
  subprocess build_command (directory pkg) v
    (build_environ v (environ w)) (fs w) = (t, 0%Z) ->
  FS.listdir (FS.dirname (directory pkg)) t = Some filenames ->
  (dpkg_buildpackage pkg v w).1
  = match
      List.find
        (fun filename =>
           Fnmatch.matches filename (debian_name pkg +:+ "_*.deb"))
        filenames
    with
    | Some filename => Ok (FS.dirname (directory pkg) ++ [filename])
    | None =>
        Raise (BackendFailed
                 ("Could not find generated archive of " +:+ name pkg
                  +:+ "!"))
    end
  /\ (forall pathname,
        (dpkg_buildpackage pkg v w).1 = Ok pathname ->
        exists filename,
          pathname = FS.dirname (directory pkg) ++ [filename]
          /\ In filename filenames
          /\ Fnmatch.matches filename (debian_name pkg +:+ "_*.deb") = true)
  /\ Fnmatch.matches "otherpkg_1.0.deb" ("pydeb-foo" +:+ "_*.deb") = false.
Proof.
  intros Hpat Hbuild Hlist.
  assert ((dpkg_buildpackage pkg v w).1
          = match List.find (is_archive pkg) filenames with
            | Some filename => Ok (FS.dirname (directory pkg) ++ [filename])
            | None => Raise (not_found pkg)
            end) as Hscan.
  { rewrite dpkg_buildpackage_run. cbn zeta. rewrite Hbuild.
    cbn [nonzero Z.eqb negb]. erewrite bind_ok by reflexivity.
    erewrite bind_ok
      by (unfold os_listdir; cbn [fs]; rewrite Hlist; reflexivity).
    apply (scan_find _ _ _ Hpat). }
  split; [exact Hscan|]. split; [|by vm_compute].
  intros pathname. rewrite Hscan.
  destruct (List.find (is_archive pkg) filenames) as [filename|] eqn:Hfind;
    [|done].
  intros [= <-]. apply List.find_some in Hfind as [Hin Hmatch]. eauto.
Qed.

Lemma debianize_raises_backend_failed pkg v w e :
  (debianize pkg v w).1 = Raise e -> is_BackendFailed e = true.
Proof.
  destruct (FS.isfile (control_file pkg) (fs w)) eqn:Hfile.
  - rewrite (debianize_stale _ _ _ Hfile). unfold debianize_outcome.
    destruct (subprocess _ _ _ _ _) as [t status].
    destruct (nonzero status); [|done]. by intros [= <-].
  - rewrite (debianize_fresh _ _ _ Hfile). unfold debianize_outcome.
    destruct (subprocess _ _ _ _ _) as [t status].
    destruct (nonzero status); [|done]. by intros [= <-].
Qed.

Lemma apply_script_raises_backend_failed pkg cfg v w command e :
  get cfg (name pkg) "script" = Ok command ->
  (apply_script pkg cfg v w).1 = Raise e -> is_BackendFailed e = true.
Proof.
  intros Hget. unfold apply_script.
  destruct (has_option cfg (name pkg) "script"); [|done].
  erewrite bind_ok by (unfold lift; rewrite Hget; reflexivity).
  erewrite bind_ok by reflexivity.
  unfold mbind, M_bind, run. cbn [fs environ trace].
  destruct (subprocess _ _ _ _ _) as [t status].
  destruct (nonzero status); [|done]. by intros [= <-].
Qed.

(** C6: when the native builder exits with a status other than zero,
    [dpkg_buildpackage] raises a bare [Exception], which is not a
    [BackendFailed]; the failures of the debianize, control-patch,
    script and scan stages are all [BackendFailed]. *)
Theorem build_failure_is_not_backend_failed pkg v w t status :
  subprocess build_command (directory pkg) v
    (build_environ v (environ w)) (fs w) = (t, status) ->
  status <> 0%Z ->
  (dpkg_buildpackage pkg v w).1
  = Raise (PyException
             ("Failed to build package " +:+ debian_name pkg +:+ "!"))
  /\ is_BackendFailed
       (PyException ("Failed to build package " +:+ debian_name pkg +:+ "!"))
     = false
  /\ (forall w1 e,
        (debianize pkg v w1).1 = Raise e -> is_BackendFailed e = true)
  /\ (forall cfg w1 text ps,
        FS.read (control_file pkg) (fs w1) = Some text ->
        iter_paragraphs text = Ok ps ->
        length ps <> 2 ->
        exists msg, (patch_control pkg cfg w1).1 = Raise (BackendFailed msg))
  /\ (forall cfg w1 command e,
        get cfg (name pkg) "script" = Ok command ->
        (apply_script pkg cfg v w1).1 = Raise e ->
        is_BackendFailed e = true)
  /\ (forall parent filenames w1 e,
        Fnmatch.compiles (archive_pattern pkg) = true ->
        (scan pkg parent filenames w1).1 = Raise e ->
        is_BackendFailed e = true).
Proof.
  intros Hbuild Hstatus. repeat split.
  - rewrite dpkg_buildpackage_run. cbn zeta. rewrite Hbuild.
    apply Z.eqb_neq in Hstatus. unfold nonzero. by rewrite Hstatus.
  - apply debianize_raises_backend_failed.
  - intros cfg w1 text ps Hread Hparse Hlen.
    rewrite (patch_control_other _ _ _ _ _ Hread Hparse Hlen). eauto.
  - intros cfg w1 command e. apply apply_script_raises_backend_failed.
  - intros parent filenames w1 e Hpat.
    destruct (scan_find pkg parent filenames Hpat w1) as [-> _].
    destruct (List.find _ _); [done|]. by intros [= <-].
Qed.

(** C8, as the code has it: [dpkg_buildpackage] sets [DH_VERBOSE] when
    the verbosity flag is on and [DH_OPTIONS] when the stdeb version
    string is [0.6.0+git], and leaves a variable it does not set as it
    was; what it sets is set in the environment of the process and is
    still there when the stage ends, whether it returns or raises. *)
Theorem build_environment_follows_flags pkg v w :
  let env := environ (dpkg_buildpackage pkg v w).2 in
  env !! "DH_VERBOSE"
  = (if v then Some "1" else environ w !! "DH_VERBOSE")
  /\ env !! "DH_OPTIONS"
     = (if String.eqb stdeb_version "0.6.0+git"
        then Some "--no-guessing-deps"
        else environ w !! "DH_OPTIONS")
  /\ forall key,
       key <> "DH_VERBOSE" -> key <> "DH_OPTIONS" ->
       env !! key = environ w !! key.
Proof.
  cbn zeta. rewrite dpkg_buildpackage_environ. unfold build_environ.
  destruct v, (String.eqb stdeb_version "0.6.0+git");
    repeat split; intros; by simplify_map_eq.
Qed.

End Claims.

(** * The claims on the sample package *)

Lemma build_runs_stages_in_order_witness :
  (build (H := Sample.old_stdeb) Sample.context_with_script
     (Sample.world_of Sample.debianized)).1
  = Raise (BackendFailed "Failed to apply script to foo!").
Proof.
  erewrite (proj2 (proj2 (build_runs_stages_in_order (H := Sample.old_stdeb)
                            Sample.context_with_script
                            (Sample.world_of Sample.debianized))) 2).
  - reflexivity.
  - reflexivity.
  - vm_compute. reflexivity.
  - vm_compute. reflexivity.
Defined.

Lemma patch_control_format_check_witness :
  (patch_control (H := Sample.old_stdeb) Sample.foo Sample.no_script
     (Sample.world_of Sample.truncated)).1
  = Raise (BackendFailed "Unexpected control file format for foo!").
Proof.
  apply (proj1 (patch_control_format_check (H := Sample.old_stdeb)
                  Sample.foo Sample.no_script
                  (Sample.world_of Sample.truncated) Sample.source_only
                  [[("Source", "foo"); ("Maintainer", "X")]]
                  eq_refl eq_refl)).
  simpl. lia.
Defined.

Lemma patch_control_format_error_keeps_file_witness :
  fs (patch_control (H := Sample.old_stdeb) Sample.foo Sample.no_script
        (Sample.world_of Sample.truncated)).2
  = Sample.truncated.
Proof.
  apply (patch_control_format_error_keeps_file (H := Sample.old_stdeb)
           Sample.foo Sample.no_script
           (Sample.world_of Sample.truncated) Sample.source_only
           [[("Source", "foo"); ("Maintainer", "X")]]).
  - reflexivity.
  - reflexivity.
  - simpl. lia.
Defined.

Lemma user_overrides_applied_last_witness :
  FS.read (control_file Sample.foo)
    (fs (patch_control (H := Sample.old_stdeb) Sample.foo Sample.no_script
           (Sample.world_of Sample.debianized)).2)
  = Some
      (Text.unlines
         ["Source: foo"; "Maintainer: X"; "";
          "Package: pydeb-foo"; "Depends: python"; "Maintainer: X";
          "Description: Packaged by py2deb on November 4, 2026 at 10:00"]).
Proof.
  apply (user_overrides_applied_last (H := Sample.old_stdeb)
           Sample.foo Sample.no_script
           (Sample.world_of Sample.debianized) Sample.control
           [("Source", "foo"); ("Maintainer", "X")]
           [("Package", "foo"); ("Depends", "(none)"); ("Maintainer", "X")]).
  - reflexivity.
  - reflexivity.
Defined.

Lemma control_text_roundtrip_witness :
  exists p0 p1,
    Deb822.iter_paragraphs Sample.control = Ok [p0; p1]
    /\ Deb822.control_text p0 p1 = Sample.control.
Proof.
  apply control_text_roundtrip. vm_compute. reflexivity.
Defined.

Lemma debianize_removes_debianized_tree_witness :
  trace (debianize (H := Sample.old_stdeb) Sample.foo false
           (Sample.world_of Sample.debianized)).2
  = [Log WARNING
       "%s: Package was previously Debianized: Overwriting existing files!"
       ["foo"];
     Removed ["build"; "foo"; "debian"];
     Log DEBUG "%s: Debianizing package" ["foo"];
     Exec
       "/usr/bin/python setup.py --command-packages=stdeb.command debianize --ignore-install-requires"
       ["build"; "foo"] false;
     Log DEBUG "%s: Finished debianizing package." ["foo"]].
Proof.
  rewrite (proj2 (debianize_removes_debianized_tree (H := Sample.old_stdeb)
                    Sample.foo false (Sample.world_of Sample.debianized)
                    eq_refl)).
  vm_compute. reflexivity.
Defined.

(** C3, as the spec has it, fails on a [debian] directory without a
    control file: the directory is there, no warning is logged, nothing
    is removed, and after the Debianizer has run the old [rules] file
    stands next to the new control file. *)
Lemma debianize_keeps_tree_without_control :
  let w := Sample.world_of Sample.leftover in
  let w' := (debianize (H := Sample.old_stdeb) Sample.foo false w).2 in
  FS.isdir (directory Sample.foo ++ ["debian"]) (fs w) = true
  /\ trace w'
     = [Log DEBUG "%s: Debianizing package" ["foo"];
        Exec
          "/usr/bin/python setup.py --command-packages=stdeb.command debianize --ignore-install-requires"
          ["build"; "foo"] false;
        Log DEBUG "%s: Finished debianizing package." ["foo"]]
  /\ FS.read (directory Sample.foo ++ ["debian"; "rules"]) (fs w')
     = Some "old rules"
  /\ FS.read (directory Sample.foo ++ ["debian"; "control"]) (fs w')
     = Some Sample.control.
Proof. vm_compute. repeat split. Qed.

Lemma debianize_flag_iff_old_stdeb_witness :
  In "--ignore-install-requires" (debianize_command (H := Sample.old_stdeb))
  /\ ~ In "--ignore-install-requires" (debianize_command (H := Sample.new_stdeb)).
Proof.
  split.
  - apply (proj1 (debianize_flag_iff_old_stdeb (H := Sample.old_stdeb))).
    reflexivity.
  - intros Hin.
    apply (proj1 (debianize_flag_iff_old_stdeb (H := Sample.new_stdeb))) in Hin.
    vm_compute in Hin. discriminate Hin.
Defined.

Lemma artifact_scan_returns_first_match_witness :
  (dpkg_buildpackage (H := Sample.old_stdeb) Sample.foo false
     (Sample.world_of Sample.with_other_archive)).1
  = Ok ["build"; "pydeb-foo_1.0-1_all.deb"].
Proof.
  rewrite (proj1 (artifact_scan_returns_first_match (H := Sample.old_stdeb)
                    Sample.foo false
                    (Sample.world_of Sample.with_other_archive)
                    _ ["otherpkg_1.0.deb"; "foo"; "pydeb-foo_1.0-1_all.deb"]
                    eq_refl eq_refl eq_refl)).
  vm_compute. reflexivity.
Defined.

Lemma build_failure_is_not_backend_failed_witness :
  (dpkg_buildpackage (H := Sample.broken_build) Sample.foo false
     (Sample.world_of Sample.debianized)).1
  = Raise (PyException "Failed to build package pydeb-foo!").
Proof.
  eapply (build_failure_is_not_backend_failed (H := Sample.broken_build)
            Sample.foo false (Sample.world_of Sample.debianized) _ 2).
  - vm_compute. reflexivity.
  - lia.
Defined.

Lemma build_environment_follows_flags_witness :
  environ (dpkg_buildpackage (H := Sample.new_stdeb) Sample.foo true
             (Sample.world_of Sample.debianized)).2 !! "DH_OPTIONS"
  = Some "--no-guessing-deps".
Proof.
  apply (build_environment_follows_flags (H := Sample.new_stdeb)
           Sample.foo true (Sample.world_of Sample.debianized)).
Defined.

(** C8, as the spec has it, fails on a quiet build with the old stdeb:
    neither variable is set when the stage ends. *)
Lemma quiet_build_sets_no_variable :
  let w' := (dpkg_buildpackage (H := Sample.old_stdeb) Sample.foo false
               (Sample.world_of Sample.debianized)).2 in
  environ w' !! "DH_VERBOSE" = None /\ environ w' !! "DH_OPTIONS" = None.
Proof. vm_compute. split; reflexivity. Qed.

(** The end-to-end run of the sample package: every subprocess
    succeeds, the parent directory receives the archive, and [build]
    returns its path. *)
Example build_returns_archive :
  (build (H := Sample.old_stdeb) Sample.context
     (Sample.world_of Sample.with_other_archive)).1
  = Ok ["build"; "pydeb-foo_1.0-1_all.deb"].
Proof. vm_compute. reflexivity. Qed.

(** The events of that run, in the order of the stages. *)
Example build_trace :
  trace (build (H := Sample.old_stdeb) Sample.context
           (Sample.world_of Sample.with_other_archive)).2
  = [Log WARNING
       "%s: Package was previously Debianized: Overwriting existing files!"
       ["foo"];
     Removed ["build"; "foo"; "debian"];
     Log DEBUG "%s: Debianizing package" ["foo"];
     Exec
       "/usr/bin/python setup.py --command-packages=stdeb.command debianize --ignore-install-requires"
       ["build"; "foo"] false;
     Log DEBUG "%s: Finished debianizing package." ["foo"];
     Log DEBUG "%s: Patching control file of %s" ["foo"];
     Opened ["build"; "foo"; "debian"; "control"] "r";
     Opened ["build"; "foo"; "debian"; "control"] "w";
     Log DEBUG "%s: Control file has been patched." ["foo"];
     Log INFO "%s: Building package .." ["pydeb-foo"];
     Exec ". /etc/environment && dpkg-buildpackage -us -uc"
       ["build"; "foo"] false;
     Log DEBUG "%s: Scanning for generated Debian packages .." ["foo"];
     Log DEBUG "%s: Considering file: %s" ["foo"; "/build/otherpkg_1.0.deb"];
     Log DEBUG "%s: Considering file: %s"
       ["foo"; "/build/pydeb-foo_1.0-1_all.deb"];
     Log INFO "%s: Build of %s succeeded, checking package with Lintian .."
       ["foo"; "/build/pydeb-foo_1.0-1_all.deb"];
     System "lintian /build/pydeb-foo_1.0-1_all.deb >&2"].
Proof. vm_compute. reflexivity. Qed.

(** With only a [.dsc] file next to the package directory the scan
    finds nothing. *)
Example build_without_archive :
  (scan (H := Sample.old_stdeb) Sample.foo ["build"]
     ["pydeb-foo_1.0-1.dsc"; "foo"] (Sample.world_of Sample.debianized)).1
  = Raise (BackendFailed "Could not find generated archive of foo!").
Proof. vm_compute. reflexivity. Qed.

(** A document with two blank lines between its paragraphs parses into
    the same two paragraphs and is not written back as it was: the
    layout is part of being well formed. *)
Example roundtrip_needs_one_blank_line :
  let x := Text.unlines ["Source: foo"; ""; ""; "Package: foo"] in
  Deb822.iter_paragraphs x = Ok [[("Source", "foo")]; [("Package", "foo")]]
  /\ Deb822.control_text [("Source", "foo")] [("Package", "foo")] <> x.
Proof. vm_compute. split; [reflexivity|discriminate]. Qed.

(** * Further properties of the backend *)

(** ** Writes and removals touch one place *)

Module FSFrame.

Import FS FSFacts.

Lemma find_entry_alter_entry_ne c d f es :
  c <> d -> find_entry d (alter_entry c f es) = find_entry d es.
Proof.
  intros Hcd. induction es as [|[k m] es IH]; [done|].
  cbn [alter_entry]. destruct (String.eqb_spec k c) as [->|Hk];
    cbn [find_entry].
  - by destruct (String.eqb_spec c d).
  - by rewrite IH.
Qed.

Lemma find_entry_remove_entry_ne c d es :
  c <> d -> find_entry d (remove_entry c es) = find_entry d es.
Proof.
  intros Hcd. induction es as [|[k m] es IH]; [done|].
  unfold remove_entry in *. cbn [List.filter fst].
  destruct (String.eqb_spec k c) as [->|Hk]; cbn [negb find_entry].
  - by destruct (String.eqb_spec c d).
  - by rewrite IH.
Qed.

Lemma find_entry_snoc_ne c d es m :
  c <> d -> find_entry d (es ++ [(c, m)]) = find_entry d es.
Proof.
  intros Hcd. induction es as [|[k m'] es IH]; cbn [app find_entry].
  - by destruct (String.eqb_spec c d).
  - by rewrite IH.
Qed.

Lemma remove_step c d p es :
  remove (c :: d :: p) (Dir es) = Dir (alter_entry c (remove (d :: p)) es).
Proof. reflexivity. Qed.

(** Removing a tree changes no file outside it. *)
Lemma read_remove p : forall q t,
  ~ p `prefix_of` q -> read q (remove p t) = read q t.
Proof.
  induction p as [|c p IH]; intros q t Hpq.
  - destruct Hpq. apply prefix_nil.
  - destruct t as [|es]; [by destruct p|].
    destruct q as [|d q]; [by destruct p|].
    destruct (decide (c = d)) as [<-|Hcd].
    + destruct p as [|c' p].
      * destruct Hpq. by apply prefix_cons, prefix_nil.
      * rewrite remove_step. unfold read in *. cbn [lookup].
        rewrite find_entry_alter_entry.
        destruct (find_entry c es) as [m|]; [|done]. cbn [fmap option_fmap option_map].
        apply IH. intros Hp. apply Hpq. by apply prefix_cons.
    + unfold read. destruct p as [|c' p].
      * cbn [remove lookup]. by rewrite find_entry_remove_entry_ne.
      * rewrite remove_step. cbn [lookup].
        by rewrite find_entry_alter_entry_ne.
Qed.

(** Writing a file changes no other file. *)
Lemma read_write_ne p data : forall q t t',
  q <> p -> write p data t = Some t' -> read q t' = read q t.
Proof.
  induction p as [|c p IH]; intros q t t' Hqp; [by destruct t|].
  destruct t as [|es]; [by destruct p|].
  destruct q as [|d q].
  { intros Hw. unfold read. cbn [lookup].
    destruct p as [|c' p].
    - cbn [write] in Hw. destruct (find_entry c es) as [[|]|]; by simplify_eq.
    - rewrite write_step in Hw.
      destruct (find_entry c es) as [m|]; [|done].
      destruct (write _ data m); by simplify_eq. }
  destruct p as [|c' p].
  - cbn [write]. unfold read.
    destruct (find_entry c es) as [[old|]|] eqn:Hc; [|done|];
      intros [= <-]; cbn [lookup].
    + destruct (decide (c = d)) as [<-|Hcd].
      * rewrite find_entry_alter_entry, Hc. cbn.
        destruct q as [|d' q]; [done|]. done.
      * by rewrite find_entry_alter_entry_ne.
    + destruct (decide (c = d)) as [<-|Hcd].
      * rewrite find_entry_snoc, Hc by done.
        destruct q as [|d' q]; [done|]. done.
      * by rewrite find_entry_snoc_ne.
  - rewrite write_step. unfold read in *.
    destruct (find_entry c es) as [m|] eqn:Hc; [|done].
    destruct (write (c' :: p) data m) as [m'|] eqn:Hm; [|done].
    intros [= <-]. cbn [lookup].
    destruct (decide (c = d)) as [<-|Hcd].
    + rewrite find_entry_alter_entry, Hc. cbn.
      apply (IH q m m'); [congruence|done].
    + by rewrite find_entry_alter_entry_ne.
Qed.

End FSFrame.

(** ** What the stages leave alone *)

Section Frames.

Context `{Externals}.

Import Text Deb822 FieldMerger.

Lemma preserves_ret {A B} (obs : world -> B) (a : A) : preserves obs (mret a).
Proof. by intros w. Qed.

Lemma preserves_raise {A B} (obs : world -> B) e : preserves obs (raise (A := A) e).
Proof. by intros w. Qed.

Lemma preserves_lift {A B} (obs : world -> B) (r : result A) :
  preserves obs (lift r).
Proof. by intros w. Qed.

Lemma preserves_bind {A B C} (obs : world -> C) (m : M A) (f : A -> M B) :
  preserves obs m -> (forall a, preserves obs (f a)) ->
  preserves obs (m ≫= f).
Proof.
  intros Hm Hf w. unfold mbind, M_bind. specialize (Hm w).
  destruct (m w) as [[a|e] w']; cbn [snd] in *; [|done].
  by rewrite Hf.
Qed.

Lemma preserves_if {A B} (obs : world -> B) (b : bool) (m1 m2 : M A) :
  preserves obs m1 -> preserves obs m2 ->
  preserves obs (if b then m1 else m2).
Proof. by destruct b. Qed.

Lemma preserves_index {A B} (obs : world -> B) (l : list A) i :
  preserves obs (index l i).
Proof. unfold index. by destruct (l !! i). Qed.

(** The environment. *)

Lemma environ_emit_event e : preserves environ (emit_event e).
Proof. by intros w. Qed.

Lemma environ_os_path_isfile p : preserves environ (os_path_isfile p).
Proof. by intros w. Qed.

Lemma environ_shutil_rmtree p : preserves environ (shutil_rmtree p).
Proof. intros w. unfold shutil_rmtree. by destruct (FS.rmtree p (fs w)). Qed.

Lemma environ_read_file p : preserves environ (read_file p).
Proof. intros w. unfold read_file. by destruct (FS.read p (fs w)). Qed.

Lemma environ_open_for_writing p : preserves environ (open_for_writing p).
Proof.
  intros w. unfold open_for_writing. by destruct (FS.write p "" (fs w)).
Qed.

Lemma environ_handle_write p data : preserves environ (handle_write p data).
Proof.
  intros w. unfold handle_write. destruct (FS.read p (fs w)); [|done].
  by destruct (FS.write p _ (fs w)).
Qed.

Lemma environ_run command cwd v : preserves environ (run command cwd v).
Proof. intros w. unfold run. by destruct (subprocess _ _ _ _ _). Qed.

(** The files other than the one that is written. *)

Lemma read_emit_event q e :
  preserves (fun w => FS.read q (fs w)) (emit_event e).
Proof. by intros w. Qed.

Lemma read_read_file q p :
  preserves (fun w => FS.read q (fs w)) (read_file p).
Proof. intros w. unfold read_file. by destruct (FS.read p (fs w)). Qed.

Lemma read_open_for_writing q p :
  q <> p -> preserves (fun w => FS.read q (fs w)) (open_for_writing p).
Proof.
  intros Hqp w. unfold open_for_writing.
  destruct (FS.write p "" (fs w)) as [t|] eqn:Ht; [|done].
  apply (FSFrame.read_write_ne _ _ _ _ _ Hqp Ht).
Qed.

Lemma read_handle_write q p data :
  q <> p -> preserves (fun w => FS.read q (fs w)) (handle_write p data).
Proof.
  intros Hqp w. unfold handle_write. destruct (FS.read p (fs w)); [|done].
  destruct (FS.write p _ (fs w)) as [t|] eqn:Ht; [|done].
  apply (FSFrame.read_write_ne _ _ _ _ _ Hqp Ht).
Qed.

Ltac preserving :=
  repeat first
    [ apply preserves_bind; [|intros ?]
    | apply preserves_if
    | apply preserves_ret
    | apply preserves_raise
    | apply preserves_lift
    | apply preserves_index
    | apply environ_emit_event
    | apply environ_os_path_isfile
    | apply environ_shutil_rmtree
    | apply environ_read_file
    | apply environ_open_for_writing
    | apply environ_handle_write
    | apply environ_run
    | apply read_emit_event
    | apply read_read_file
    | apply read_open_for_writing; assumption
    | apply read_handle_write; assumption ].

Lemma environ_debianize pkg v : preserves environ (debianize pkg v).
Proof. unfold debianize, logger_warn, logger_debug. preserving. Qed.

Lemma environ_patch_control pkg cfg : preserves environ (patch_control pkg cfg).
Proof. unfold patch_control, logger_debug. preserving. Qed.

Lemma environ_apply_script pkg cfg v : preserves environ (apply_script pkg cfg v).
Proof. unfold apply_script, logger_debug. preserving. Qed.

(** The stages before the native build never touch [os.environ]:
    [debianize], [patch_control] and [apply_script] leave the
    environment of the process as they found it, whether they return or
    raise. *)
Theorem stages_keep_environment pkg cfg v w :
  environ (debianize pkg v w).2 = environ w
  /\ environ (patch_control pkg cfg w).2 = environ w
  /\ environ (apply_script pkg cfg v w).2 = environ w.
Proof.
  split; [apply environ_debianize|].
  split; [apply environ_patch_control|apply environ_apply_script].
Qed.

(** [patch_control] writes to the control file and to nothing else:
    every other file reads the same after the stage as before, whether
    the stage returns or raises. *)
Theorem patch_control_touches_only_control_file pkg cfg w q :
  q <> control_file pkg ->
  FS.read q (fs (patch_control pkg cfg w).2) = FS.read q (fs w).
Proof.
  intros Hq. revert w.
  change (preserves (fun w => FS.read q (fs w)) (patch_control pkg cfg)).
  unfold patch_control, logger_debug. preserving.
Qed.

End Frames.

(** ** The stages one by one *)

Section Stages.

Context `{Externals}.

Import Text Deb822 FieldMerger.

Lemma debianize_ends pkg v w :
  exists before,
    debianize pkg v w
    = debianize_outcome pkg v (environ w) (debianize_start pkg (fs w)) before.
Proof.
  unfold debianize_start.
  destruct (FS.isfile (control_file pkg) (fs w)) eqn:Hfile.
  - rewrite (debianize_stale _ _ _ Hfile). eauto.
  - rewrite (debianize_fresh _ _ _ Hfile). eauto.
Qed.

(** [debianize] returns exactly when the Debianizer exits with status
    zero and raises [BackendFailed], naming the package, for every other
    status; either way the file system it leaves is the one the
    Debianizer has left. *)
Theorem debianize_succeeds_iff_debianizer_does pkg v w :
  let ran :=
    subprocess (join " " debianize_command) (directory pkg) v (environ w)
      (debianize_start pkg (fs w)) in
  ((debianize pkg v w).1 = Ok () <-> ran.2 = 0%Z)
  /\ (ran.2 <> 0%Z ->
      (debianize pkg v w).1
      = Raise (BackendFailed
                 ("Failed to debianize package! (" +:+ name pkg +:+ ")")))
  /\ fs (debianize pkg v w).2 = ran.1.
Proof.
  cbn zeta. destruct (debianize_ends pkg v w) as [before ->].
  unfold debianize_outcome, nonzero.
  destruct (subprocess _ _ _ _ _) as [t status]. cbn [fst snd].
  destruct (Z.eqb_spec status 0) as [->|Hstatus]; cbn [negb fst snd fs].
  - repeat split; done.
  - repeat split; done.
Qed.

(** The Debianizer starts on a tree in which every file outside the
    [debian] directory of the package reads as it did before the stage:
    the removal of line 38 reaches nothing else. *)
Theorem debianize_start_keeps_other_files pkg t q :
  ~ (directory pkg ++ ["debian"]) `prefix_of` q ->
  FS.read q (debianize_start pkg t) = FS.read q t.
Proof.
  intros Hq. unfold debianize_start.
  destruct (FS.isfile (control_file pkg) t); [|done].
  by apply FSFrame.read_remove.
Qed.

(** An unreadable control file and a control file that does not parse
    end [patch_control] with the error of the read or of the parser, not
    with [BackendFailed], and before anything is written. *)
Theorem patch_control_propagates_read_errors pkg cfg w :
  (FS.read (control_file pkg) (fs w) = None ->
   (patch_control pkg cfg w).1 = Raise (IOError (control_file pkg))
   /\ fs (patch_control pkg cfg w).2 = fs w)
  /\ (forall text e,
        FS.read (control_file pkg) (fs w) = Some text ->
        iter_paragraphs text = Raise e ->
        (patch_control pkg cfg w).1 = Raise e
        /\ fs (patch_control pkg cfg w).2 = fs w).
Proof.
  split.
  - intros Hread. unfold patch_control.
    erewrite bind_ok by reflexivity.
    erewrite bind_raise
      by (unfold read_file; cbn [fs]; rewrite Hread; reflexivity).
    done.
  - intros text e Hread Hparse. unfold patch_control.
    erewrite bind_ok by reflexivity.
    erewrite bind_ok by (unfold read_file; cbn [fs]; by rewrite Hread).
    erewrite bind_raise by (unfold lift; rewrite Hparse; reflexivity).
    done.
Qed.

(** [apply_script] does nothing at all without a [script] option, hands
    on the error of [config.get] without running anything, and otherwise
    runs the configured command, as it stands, once in the package
    directory: it returns when the command exits with status zero and
    raises [BackendFailed] otherwise. *)
Theorem apply_script_runs_configured_command pkg cfg v w :
  (has_option cfg (name pkg) "script" = false ->
   apply_script pkg cfg v w = (Ok (), w))
  /\ (forall e,
        has_option cfg (name pkg) "script" = true ->
        get cfg (name pkg) "script" = Raise e ->
        apply_script pkg cfg v w = (Raise e, w))
  /\ (forall command,
        has_option cfg (name pkg) "script" = true ->
        get cfg (name pkg) "script" = Ok command ->
        let ran :=
          subprocess command (directory pkg) v (environ w) (fs w) in
        ((apply_script pkg cfg v w).1 = Ok () <-> ran.2 = 0%Z)
        /\ (ran.2 <> 0%Z ->
            (apply_script pkg cfg v w).1
            = Raise (BackendFailed
                       ("Failed to apply script to " +:+ name pkg +:+ "!")))
        /\ fs (apply_script pkg cfg v w).2 = ran.1
        /\ List.filter is_exec (trace (apply_script pkg cfg v w).2)
           = List.filter is_exec (trace w) ++ [Exec command (directory pkg) v]).
Proof.
  unfold apply_script. split; [by intros ->|]. split.
  - intros e -> Hget.
    erewrite bind_raise by (unfold lift; rewrite Hget; reflexivity).
    done.
  - intros command -> Hget. cbn zeta.
    erewrite bind_ok by (unfold lift; rewrite Hget; reflexivity).
    erewrite bind_ok by reflexivity.
    unfold mbind, M_bind, run, nonzero. cbn [fs environ trace].
    destruct (subprocess _ _ _ _ _) as [t status]. cbn [fst snd].
    destruct (Z.eqb_spec status 0) as [->|Hstatus];
      cbn [negb raise logger_debug emit_event fst snd fs trace];
      rewrite ?List.filter_app; cbn [List.filter is_exec];
      rewrite ?app_nil_r; repeat split; done.
Qed.

End Stages.

(** ** The native build and the scan *)

Section NativeBuild.

Context `{Externals}.

Import Text Deb822 FieldMerger.

Lemma fnmatch_ok filename pat b :
  Fnmatch.fnmatch filename pat = Ok b -> Fnmatch.matches filename pat = b.
Proof.
  unfold Fnmatch.fnmatch. destruct (Fnmatch.compiles pat); [|done].
  by intros [= <-].
Qed.

Lemma fnmatch_raise filename pat e :
  Fnmatch.fnmatch filename pat = Raise e -> e = ReError pat.
Proof.
  unfold Fnmatch.fnmatch. destruct (Fnmatch.compiles pat); [done|].
  by intros [= <-].
Qed.

(** What the scan returns is a listed name that has passed both tests. *)
Lemma scan_ok pkg parent filenames : forall w pathname,
  (scan pkg parent filenames w).1 = Ok pathname ->
  exists filename,
    In filename filenames
    /\ pathname = parent ++ [filename]
    /\ Fnmatch.matches filename (archive_pattern pkg) = true
    /\ endswith filename ".deb" = true.
Proof.
  induction filenames as [|filename rest IH]; intros w pathname; [done|].
  cbn [scan]. destruct (endswith filename ".deb") eqn:Hdeb.
  - erewrite bind_ok by reflexivity.
    unfold mbind at 1, M_bind at 1, lift at 1.
    destruct (Fnmatch.fnmatch filename (archive_pattern pkg)) as [[|]|e]
      eqn:Hmatch; [| |done].
    + erewrite bind_ok by reflexivity.
      unfold mbind, M_bind, os_system. cbn [fs environ trace].
      destruct (shell _ _ _) as [t status]. intros [= <-].
      exists filename. apply fnmatch_ok in Hmatch. cbn [In]. auto.
    + intros (f & Hin & Hrest)%IH. exists f. cbn [In]. auto.
  - intros (f & Hin & Hrest)%IH. exists f. cbn [In]. auto.
Qed.

(** What the scan raises is the error of line 123 or that of the
    pattern compiler. *)
Lemma scan_raise pkg parent filenames : forall w e,
  (scan pkg parent filenames w).1 = Raise e ->
  e = not_found pkg \/ e = ReError (archive_pattern pkg).
Proof.
  induction filenames as [|filename rest IH]; intros w e.
  - intros [= <-]. by left.
  - cbn [scan]. destruct (endswith filename ".deb"); [|apply IH].
    erewrite bind_ok by reflexivity.
    unfold mbind at 1, M_bind at 1, lift at 1.
    destruct (Fnmatch.fnmatch filename (archive_pattern pkg)) as [[|]|e']
      eqn:Hmatch.
    + erewrite bind_ok by reflexivity.
      unfold mbind, M_bind, os_system. cbn [fs environ trace].
      by destruct (shell _ _ _) as [t status].
    + apply IH.
    + intros [= <-]. right. by apply fnmatch_raise in Hmatch.
Qed.

(** One turn of the loop. *)
Lemma scan_cons pkg parent filename rest w :
  scan pkg parent (filename :: rest) w
  = if endswith filename ".deb" then
      let pathname := parent ++ [filename] in
      let considering :=
        Log DEBUG "%s: Considering file: %s" [name pkg; FS.path_str pathname] in
      let w1 := World (fs w) (environ w) (trace w ++ [considering]) in
      match Fnmatch.fnmatch filename (archive_pattern pkg) with
      | Ok true =>
          (Ok pathname,
           World (shell (lintian_command pathname) (environ w) (fs w)).1
             (environ w)
             (trace w ++
              [considering;
               Log INFO
                 "%s: Build of %s succeeded, checking package with Lintian .."
                 [name pkg; FS.path_str pathname];
               System (lintian_command pathname)]))
      | Ok false => scan pkg parent rest w1
      | Raise e => (Raise e, w1)
      end
    else scan pkg parent rest w.
Proof.
  cbn [scan]. destruct (endswith filename ".deb"); [|done]. cbn zeta.
  erewrite bind_ok by reflexivity.
  unfold mbind at 1, M_bind at 1, lift at 1.
  destruct (Fnmatch.fnmatch filename (archive_pattern pkg)) as [[|]|e];
    [|done|done].
  erewrite bind_ok by reflexivity.
  unfold mbind, M_bind, os_system, lintian_command. cbn [fs environ trace].
  destruct (shell _ _ _) as [t status]. cbn [fst mret M_ret].
  by rewrite <-!app_assoc.
Qed.

(** The scan runs the lint command once, last, on what it returns, and
    not at all when it raises. *)
Lemma scan_trace pkg parent filenames : forall w,
  exists events,
    trace (scan pkg parent filenames w).2 = trace w ++ events
    /\ match (scan pkg parent filenames w).1 with
       | Ok pathname =>
           exists before,
             events = before ++ [System (lintian_command pathname)]
             /\ List.filter is_system before = []
       | Raise _ => List.filter is_system events = []
       end.
Proof.
  induction filenames as [|filename rest IH]; intros w.
  - exists []. cbn. by rewrite app_nil_r.
  - rewrite scan_cons. destruct (endswith filename ".deb"); [|apply IH].
    cbn zeta.
    set (considering := Log DEBUG "%s: Considering file: %s"
                          [name pkg; FS.path_str (parent ++ [filename])]).
    destruct (Fnmatch.fnmatch filename (archive_pattern pkg)) as [[|]|e].
    + cbn [fst snd trace]. eexists. split; [reflexivity|].
      eexists [_; _]. split; [reflexivity|]. done.
    + destruct (IH (World (fs w) (environ w) (trace w ++ [considering])))
        as (events & Htrace & Hevents).
      exists (considering :: events). cbn [trace] in Htrace.
      rewrite Htrace, <-app_assoc. split; [done|].
      destruct (scan pkg parent rest _).1 as [pathname|e].
      * destruct Hevents as (before & -> & Hbefore).
        exists (considering :: before). by split.
      * done.
    + exists [considering]. by split.
Qed.

(** [dpkg_buildpackage] raises its bare [Exception] exactly when the
    builder, started with the environment of lines 104 to 109, exits
    with a status other than zero; nothing is scanned or linted then:
    the stage ends with the start of the builder as its last event, in
    the file system that the builder has left. *)
Theorem build_exception_iff_builder_fails pkg v w :
  let ran :=
    subprocess build_command (directory pkg) v
      (build_environ v (environ w)) (fs w) in
  ((exists msg, (dpkg_buildpackage pkg v w).1 = Raise (PyException msg))
   <-> ran.2 <> 0%Z)
  /\ (ran.2 <> 0%Z ->
      dpkg_buildpackage pkg v w
      = (Raise (PyException
                  ("Failed to build package " +:+ debian_name pkg +:+ "!")),
         World ran.1 (build_environ v (environ w))
           (trace w ++
            [Log INFO "%s: Building package .." [debian_name pkg];
             Exec build_command (directory pkg) v]))).
Proof.
  cbn zeta. rewrite dpkg_buildpackage_run. cbn zeta. unfold nonzero.
  destruct (subprocess _ _ _ _ _) as [t status]. cbn [fst snd].
  destruct (Z.eqb_spec status 0) as [->|Hstatus]; cbn [negb].
  - split; [|done]. split; [|done]. intros [msg Hraise]. exfalso.
    revert Hraise. erewrite bind_ok by reflexivity.
    unfold mbind, M_bind, os_listdir. cbn [fs environ trace].
    destruct (FS.listdir _ t) as [filenames|]; [|done].
    intros [Hnf|Hre]%scan_raise; [|done]. revert Hnf. by unfold not_found.
  - split; [|done]. split; [done|]. intros _. eexists. reflexivity.
Qed.

Lemma dpkg_buildpackage_ok pkg v w pathname :
  (dpkg_buildpackage pkg v w).1 = Ok pathname ->
  exists filename,
    pathname = FS.dirname (directory pkg) ++ [filename]
    /\ Fnmatch.matches filename (archive_pattern pkg) = true
    /\ endswith filename ".deb" = true.
Proof.
  rewrite dpkg_buildpackage_run. cbn zeta.
  destruct (subprocess _ _ _ _ _) as [t status].
  destruct (nonzero status); [done|].
  erewrite bind_ok by reflexivity.
  unfold mbind, M_bind, os_listdir. cbn [fs environ trace].
  destruct (FS.listdir _ t) as [filenames|]; [|done].
  intros (f & _ & Hrest)%scan_ok. eauto.
Qed.

(** Whatever the collaborators do, a path that [build] returns lies
    directly in the parent of the package directory and has a name that
    matches [<debian_name>_*.deb] and ends in [.deb]. *)
Theorem build_returns_matching_archive context w pathname :
  (build context w).1 = Ok pathname ->
  exists filename,
    pathname = FS.dirname (directory (package context)) ++ [filename]
    /\ Fnmatch.matches filename (debian_name (package context) +:+ "_*.deb")
       = true
    /\ endswith filename ".deb" = true.
Proof.
  rewrite build_run_stages.
  destruct (run_stages (stages context) w) as [[[]|e] w']; [|done].
  apply dpkg_buildpackage_ok.
Qed.

(** [dpkg_buildpackage] runs the lint command once, as its last action,
    on the shell-quoted path that it returns, whatever status the lint
    run exits with; when the stage raises, the lint command has not been
    run. *)
Theorem lintian_runs_once_on_the_result pkg v w :
  exists events,
    trace (dpkg_buildpackage pkg v w).2 = trace w ++ events
    /\ match (dpkg_buildpackage pkg v w).1 with
       | Ok pathname =>
           exists before,
             events
             = before
               ++ [System ("lintian " +:+ Pipes.quote (FS.path_str pathname)
                           +:+ " >&2")]
             /\ List.filter is_system before = []
       | Raise _ => List.filter is_system events = []
       end.
Proof.
  rewrite dpkg_buildpackage_run. cbn zeta.
  destruct (subprocess _ _ _ _ _) as [t status].
  destruct (nonzero status); [by eexists|].
  erewrite bind_ok by reflexivity.
  unfold mbind, M_bind, os_listdir. cbn [fs environ trace].
  destruct (FS.listdir _ t) as [filenames|].
  - match goal with
    | |- context [scan pkg ?parent filenames ?w0] =>
        destruct (scan_trace pkg parent filenames w0)
          as (events & Htrace & Hevents);
        destruct (scan pkg parent filenames w0) as [r w1]
    end.
    cbn [fst snd trace] in *. rewrite Htrace.
    exists (build_events pkg v
            ++ [Log DEBUG "%s: Scanning for generated Debian packages .."
                  [name pkg]]
            ++ events).
    split; [by rewrite <-!app_assoc|].
    destruct r as [pathname|e].
    + destruct Hevents as (before & -> & Hbefore).
      exists (build_events pkg v
              ++ [Log DEBUG "%s: Scanning for generated Debian packages .."
                    [name pkg]]
              ++ before).
      split; [by rewrite <-!app_assoc|].
      rewrite !List.filter_app, Hbefore. done.
    + rewrite !List.filter_app, Hevents. done.
  - cbn [fst snd trace]. rewrite <-!app_assoc. by eexists.
Qed.

End NativeBuild.

(** ** The environment across the whole pipeline *)

Section Environment.

Context `{Externals}.

Lemma preserves_variable {A} (m : M A) key :
  preserves environ m -> preserves (fun w => environ w !! key) m.
Proof. intros Hm w. cbn beta. by rewrite Hm. Qed.

Lemma variable_dpkg_buildpackage pkg v key :
  key <> "DH_VERBOSE" -> key <> "DH_OPTIONS" ->
  preserves (fun w => environ w !! key) (dpkg_buildpackage pkg v).
Proof.
  intros Hverbose Hoptions w. cbn beta.
  rewrite dpkg_buildpackage_environ. unfold build_environ.
  destruct v, (String.eqb stdeb_version "0.6.0+git"); by simplify_map_eq.
Qed.

(** When the dependency checker and the tree cleaner leave the
    environment alone, [build] as a whole changes no variable of the
    process other than [DH_VERBOSE] and [DH_OPTIONS], whether it returns
    or raises. *)
Theorem build_changes_only_build_variables context w key :
  (forall n auto w0,
     environ (sanity_check_dependencies n auto w0).2 = environ w0) ->
  (forall d w0, environ (clean_package_tree d w0).2 = environ w0) ->
  key <> "DH_VERBOSE" -> key <> "DH_OPTIONS" ->
  environ (build context w).2 !! key = environ w !! key.
Proof.
  intros Hcheck Hclean Hverbose Hoptions. revert w.
  change (preserves (fun w => environ w !! key) (build context)).
  unfold build.
  apply preserves_bind;
    [apply preserves_variable, environ_debianize|intros _].
  apply preserves_bind;
    [apply preserves_variable, environ_patch_control|intros _].
  apply preserves_bind;
    [apply preserves_variable, environ_apply_script|intros _].
  apply preserves_bind;
    [apply preserves_variable; intros w; apply Hcheck|intros _].
  apply preserves_bind;
    [apply preserves_variable; intros w; apply Hclean|intros _].
  by apply variable_dpkg_buildpackage.
Qed.

End Environment.

(** ** The pattern of the archive *)

Module ArchivePattern.

Import Text TextFacts Fnmatch FnmatchFacts.

Lemma plain_name_cons c n :
  plain_name (String c n) = true ->
  Ascii.eqb c "*" = false /\ Ascii.eqb c "?" = false
  /\ Ascii.eqb c "[" = false /\ plain_name n = true.
Proof.
  unfold plain_name. cbn [Pipes.mem_char].
  rewrite (Ascii.eqb_sym "*"), (Ascii.eqb_sym "?"), (Ascii.eqb_sym "[").
  destruct (Ascii.eqb c "*"), (Ascii.eqb c "?"), (Ascii.eqb c "["),
    (Pipes.mem_char "*" n), (Pipes.mem_char "?" n), (Pipes.mem_char "[" n);
    cbn [orb negb]; by repeat split.
Qed.

(** A plain name is translated character by character. *)
Lemma translate_go_plain n rest :
  plain_name n = true ->
  translate_go 0 (n +:+ rest) = literal n ++ translate_go 0 rest.
Proof.
  induction n as [|c n IH]; [done|].
  intros (Hstar & Hany & Hset & Hn)%plain_name_cons.
  rewrite append_cons. cbn [translate_go literal app].
  rewrite Hstar, Hany, Hset. by rewrite IH.
Qed.

Lemma glob_literal_app n ts : forall s,
  glob (literal n ++ ts) s = true <->
  exists s', s = n +:+ s' /\ glob ts s' = true.
Proof.
  induction n as [|c n IH]; intros s.
  - cbn [literal app]. split; [by eauto|]. by intros (s' & -> & Hs').
  - cbn [literal app glob]. destruct s as [|d s].
    + split; [done|]. by intros (s' & Hs' & _).
    + rewrite andb_true_iff, IH. split.
      * intros [Hc (s' & -> & Hs')]. apply Ascii.eqb_eq in Hc as ->. eauto.
      * intros (s' & Heq & Hs'). rewrite append_cons in Heq.
        injection Heq as -> ->. rewrite Ascii.eqb_refl. eauto.
Qed.

Lemma glob_star_step ts s :
  glob (Star :: ts) s
  = glob ts s
    || match s with
       | "" => false
       | String _ s' => glob (Star :: ts) s'
       end.
Proof. by destruct s. Qed.

Lemma glob_star ts : forall s,
  glob (Star :: ts) s = true <->
  exists a b, s = a +:+ b /\ glob ts b = true.
Proof.
  induction s as [|d s IH]; rewrite glob_star_step, orb_true_iff.
  - split.
    + intros [Hs|]; [|done]. by exists "", "".
    + intros (a & b & Heq & Hb). left. destruct a; [|done].
      rewrite append_nil_l in Heq. by subst b.
  - rewrite IH. split.
    + intros [Hs|(a & b & -> & Hb)].
      * by exists "", (String d s).
      * by exists (String d a), b.
    + intros (a & b & Heq & Hb). destruct a as [|c a].
      * left. rewrite append_nil_l in Heq. by subst b.
      * right. rewrite append_cons in Heq. injection Heq as -> ->. eauto.
Qed.

Lemma glob_literal_self x : glob (literal x) x = true.
Proof.
  induction x as [|c x IH]; [done|].
  cbn [literal glob]. by rewrite Ascii.eqb_refl, IH.
Qed.

(** For a package name without [*], [?] and [[], the names that the
    pattern of line 118 matches are exactly the package name, an
    underscore, any text, and [.deb]. *)
Theorem archive_pattern_matches_exactly n filename :
  plain_name n = true ->
  matches filename (n +:+ "_*.deb") = true <->
  exists version, filename = n +:+ "_" +:+ version +:+ ".deb".
Proof.
  intros Hn. unfold matches, translate.
  rewrite (translate_go_plain n "_*.deb" Hn).
  change (translate_go 0 "_*.deb") with (literal "_" ++ Star :: literal ".deb").
  rewrite glob_literal_app. split.
  - intros (s1 & -> & (s2 & -> & Hstar)%glob_literal_app).
    apply glob_star in Hstar as (version & b & -> & ->%glob_literal).
    by exists version.
  - intros (version & ->). eexists. split; [reflexivity|].
    apply glob_literal_app. eexists. split; [reflexivity|].
    apply glob_star. exists version, ".deb". split; [done|].
    apply glob_literal_self.
Qed.

(** Whatever the package name, a name that the pattern of line 118
    matches ends in [.deb]: the test of line 115 turns away no name
    that the test of line 118 would let through. *)
Theorem archive_pattern_implies_deb_suffix n filename :
  matches filename (n +:+ "_*.deb") = true ->
  endswith filename ".deb" = true.
Proof. apply matches_archive_endswith. Qed.

End ArchivePattern.

(** ** The further properties on the sample package *)

Lemma debianize_succeeds_iff_debianizer_does_witness :
  (debianize (H := Sample.old_stdeb) Sample.foo false
     (Sample.world_of Sample.debianized)).1
  = Ok ().
Proof.
  apply (proj1 (debianize_succeeds_iff_debianizer_does
                  (H := Sample.old_stdeb) Sample.foo false
                  (Sample.world_of Sample.debianized))).
  vm_compute. reflexivity.
Defined.

Lemma debianize_start_keeps_other_files_witness :
  FS.read ["build"; "foo"; "setup.py"]
    (debianize_start Sample.foo Sample.debianized)
  = Some "".
Proof.
  rewrite (debianize_start_keeps_other_files Sample.foo Sample.debianized).
  - reflexivity.
  - intros [k Hk]. simpl in Hk. discriminate Hk.
Defined.

Lemma patch_control_touches_only_control_file_witness :
  FS.read ["build"; "foo"; "setup.py"]
    (fs (patch_control (H := Sample.old_stdeb) Sample.foo Sample.no_script
           (Sample.world_of Sample.debianized)).2)
  = Some "".
Proof.
  rewrite (patch_control_touches_only_control_file (H := Sample.old_stdeb)).
  - reflexivity.
  - simpl. discriminate.
Defined.

Lemma patch_control_propagates_read_errors_witness :
  (patch_control (H := Sample.old_stdeb) Sample.foo Sample.no_script
     (Sample.world_of Sample.leftover)).1
  = Raise (IOError ["build"; "foo"; "debian"; "control"]).
Proof.
  apply (proj1 (patch_control_propagates_read_errors
                  (H := Sample.old_stdeb) Sample.foo Sample.no_script
                  (Sample.world_of Sample.leftover))).
  reflexivity.
Defined.

Lemma apply_script_runs_configured_command_witness :
  (apply_script (H := Sample.old_stdeb) Sample.foo Sample.failing_script false
     (Sample.world_of Sample.debianized)).1
  = Raise (BackendFailed "Failed to apply script to foo!").
Proof.
  apply (proj2 (proj2 (apply_script_runs_configured_command
                         (H := Sample.old_stdeb) Sample.foo
                         Sample.failing_script false
                         (Sample.world_of Sample.debianized)))
           "exit 1" eq_refl eq_refl).
  vm_compute. lia.
Defined.

Lemma build_exception_iff_builder_fails_witness :
  exists msg,
    (dpkg_buildpackage (H := Sample.broken_build) Sample.foo false
       (Sample.world_of Sample.debianized)).1
    = Raise (PyException msg).
Proof.
  apply (proj1 (build_exception_iff_builder_fails (H := Sample.broken_build)
                  Sample.foo false (Sample.world_of Sample.debianized))).
  vm_compute. lia.
Defined.

Lemma build_returns_matching_archive_witness :
  exists filename,
    ["build"; "pydeb-foo_1.0-1_all.deb"] = ["build"] ++ [filename]
    /\ Fnmatch.matches filename "pydeb-foo_*.deb" = true
    /\ Text.endswith filename ".deb" = true.
Proof.
  apply (build_returns_matching_archive (H := Sample.old_stdeb)
           Sample.context (Sample.world_of Sample.with_other_archive)).
  vm_compute. reflexivity.
Defined.

Lemma build_changes_only_build_variables_witness :
  environ (build (H := Sample.new_stdeb) Sample.context
             (Sample.at_home Sample.debianized)).2 !! "HOME"
  = Some "/root".
Proof.
  rewrite (build_changes_only_build_variables (H := Sample.new_stdeb)).
  - reflexivity.
  - intros n auto w0. reflexivity.
  - intros d w0. reflexivity.
  - discriminate.
  - discriminate.
Defined.

Lemma archive_pattern_matches_exactly_witness :
  Fnmatch.matches "pydeb-foo_1.0-1_all.deb" ("pydeb-foo" +:+ "_*.deb") = true.
Proof.
  apply (ArchivePattern.archive_pattern_matches_exactly "pydeb-foo").
  - reflexivity.
  - exists "1.0-1_all". reflexivity.
Defined.

Lemma archive_pattern_implies_deb_suffix_witness :
  Text.endswith "pydeb-foo_1.0-1_all.deb" ".deb" = true.
Proof.
  apply (ArchivePattern.archive_pattern_implies_deb_suffix "pydeb-foo").
  vm_compute. reflexivity.
Defined.

(** ** Which value a field of the binary paragraph gets, and how the
       native build can fail *)

Section Precedence.

Context `{Externals}.

Import Text Deb822 FieldMerger FieldMergerFacts.

(** After the two passes of lines 69 and 72 a field of the binary
    paragraph has the value that the configuration gives it, else the
    value that [patch_control] computes for it ([Package],
    [Description], [Depends]), else the value it had; this is the
    paragraph that a control file of two paragraphs is rewritten with. *)
Theorem patched_field_precedence pkg cfg w text p0 p1 k :
  FS.read (control_file pkg) (fs w) = Some text ->
  iter_paragraphs text = Ok [p0; p1] ->
  FS.read (control_file pkg) (fs (patch_control pkg cfg w).2)
  = Some (control_text p0 (patched pkg p1))
  /\ get_field k (patched pkg p1)
     = match override_of k (user_overrides (name pkg)) with
       | Some user => Some user
       | None =>
           match
             override_of k
               [("Package", debian_name pkg);
                ("Description",
                 time_strftime "Packaged by py2deb on %B %e, %Y at %H:%M");
                ("Depends", join ", " (debian_dependencies pkg))]
           with
           | Some computed => Some computed
           | None => get_field k p1
           end
       end.
Proof.
  intros Hread Hparse.
  destruct (patch_control_two pkg cfg _ _ _ _ Hread Hparse) as (t & -> & Ht).
  split; [exact Ht|].
  unfold patched, patch_control_file. by rewrite !get_field_merge.
Qed.

(** For a package name without an opening bracket the native-build
    stage has three ways to fail and no other: the bare [Exception] of
    line 111, the [OSError] of a parent directory that cannot be listed,
    and the [BackendFailed] of line 123. *)
Theorem native_build_errors pkg v w e :
  Pipes.mem_char "[" (debian_name pkg) = false ->
  (dpkg_buildpackage pkg v w).1 = Raise e ->
  e = PyException ("Failed to build package " +:+ debian_name pkg +:+ "!")
  \/ e = OSError (FS.dirname (directory pkg))
  \/ e = BackendFailed
           ("Could not find generated archive of " +:+ name pkg +:+ "!").
Proof.
  intros Hname. rewrite dpkg_buildpackage_run. cbn zeta.
  destruct (subprocess _ _ _ _ _) as [t status].
  destruct (nonzero status); [intros [= <-]; by left|].
  erewrite bind_ok by reflexivity.
  unfold mbind, M_bind, os_listdir. cbn [fs environ trace].
  destruct (FS.listdir _ t) as [filenames|];
    [|intros [= <-]; right; by left].
  match goal with
  | |- context [scan pkg ?parent filenames ?w0] =>
      destruct (scan_find pkg parent filenames
                  (FnmatchFacts.plain_archive_pattern_compiles _ Hname) w0)
        as [-> _]
  end.
  destruct (List.find _ filenames); [done|].
  intros [= <-]. right. by right.
Qed.

End Precedence.

Lemma patched_field_precedence_witness :
  FieldMerger.get_field "Package"
    (patched (H := Sample.old_stdeb) Sample.foo
       [("Package", "foo"); ("Depends", "(none)"); ("Maintainer", "X")])
  = Some "pydeb-foo".
Proof.
  rewrite (proj2 (patched_field_precedence (H := Sample.old_stdeb)
                    Sample.foo Sample.no_script
                    (Sample.world_of Sample.debianized) Sample.control
                    [("Source", "foo"); ("Maintainer", "X")]
                    [("Package", "foo"); ("Depends", "(none)");
                     ("Maintainer", "X")]
                    "Package" eq_refl eq_refl)).
  vm_compute. reflexivity.
Defined.

Lemma native_build_errors_witness :
  PyException "Failed to build package pydeb-foo!"
  = PyException ("Failed to build package " +:+ debian_name Sample.foo +:+ "!")
  \/ PyException "Failed to build package pydeb-foo!"
     = OSError (FS.dirname (directory Sample.foo))
  \/ PyException "Failed to build package pydeb-foo!"
     = BackendFailed
         ("Could not find generated archive of " +:+ name Sample.foo +:+ "!").
Proof.
  apply (native_build_errors (H := Sample.broken_build) Sample.foo false
           (Sample.world_of Sample.debianized)).
  - reflexivity.
  - vm_compute. reflexivity.
Defined.
